(** * Live candle aggregation and the trading loop

    A shallow embedding of [live_data_collector.py] (class
    [LiveDataCollector]) and of the main loop of [live_trader.py] (class
    [IntegratedLiveTrader]), with the properties of the candle
    aggregation state machine and of the trading gate.

    Conventions.
    - Python numbers (quote prices and sizes, [time.time()]) are kept
      abstract: a type [num] with the operations the code applies to
      them (class [PyNum]).  The few algebraic facts a proof needs are
      collected in [PyNumLaws].
    - [datetime] values are integers (microseconds since the epoch), a
      [timedelta] is their difference.
    - The external collaborators (quote client, broker, indicator
      library, signal detector, notifier) are not part of the program:
      what they answer is an input of each step.  The quote client is
      asked once by every [update]; the calls made to the others are
      recorded as [Event]s. *)

From Stdlib Require Import ZArith List Bool Lia Sorted.
From Stdlib Require String.
Import ListNotations.
Open Scope Z_scope.

Set Implicit Arguments.

(** ** Numbers *)

Class PyNum (num : Type) : Type := {
  of_int : Z -> num;             (* an int literal used as a number *)
  nadd : num -> num -> num;      (* a + b *)
  nsub : num -> num -> num;      (* a - b *)
  ndiv : num -> num -> num;      (* a / b *)
  nlt : num -> num -> bool;      (* a < b, also written b > a *)
  round6 : num -> num            (* round(a, 6) *)
}.

Class PyNumLaws {num : Type} (N : PyNum num) : Prop := {
  nadd_0_l : forall x, nadd (of_int 0) x = x;
  nlt_irrefl : forall x, nlt x x = false;
  nlt_trans : forall x y z, nlt x y = true -> nlt y z = true -> nlt x z = true
}.

(** Fixed-point instance: integers counting millionths.  It is used to
    run the model on concrete quotes. *)
#[export] Instance Z_PyNum : PyNum Z := {
  of_int := fun z => z;
  nadd := Z.add;
  nsub := Z.sub;
  ndiv := Z.div;
  nlt := Z.ltb;
  round6 := fun z => z
}.

(** ** A state monad with exceptions

    [None] as result means that an exception was raised; the state is
    the one reached when it was raised. *)

Definition Exc (S A : Type) : Type := S -> option A * S.

Definition ret {S A} (a : A) : Exc S A := fun s => (Some a, s).

Definition raise {S A} : Exc S A := fun s => (None, s).

Definition bind {S A B} (m : Exc S A) (k : A -> Exc S B) : Exc S B :=
  fun s => match m s with
           | (Some a, s') => k a s'
           | (None, s') => (None, s')
           end.

Definition gets {S A} (f : S -> A) : Exc S A := fun s => (Some (f s), s).

Definition modify {S} (f : S -> S) : Exc S unit := fun s => (Some tt, f s).

(** [try: m except: h] *)
Definition try_except {S A} (m : Exc S A) (h : Exc S A) : Exc S A :=
  fun s => match m s with
           | (Some a, s') => (Some a, s')
           | (None, s') => h s'
           end.

(** [x[...]] or an arithmetic operation on a value that may be [None]:
    a [TypeError] when it is. *)
Definition not_none {S A} (o : option A) : Exc S A :=
  match o with
  | Some a => ret a
  | None => raise
  end.

Declare Scope exc_scope.
Delimit Scope exc_scope with exc.
Notation "x <- m ;; k" := (bind m (fun x => k))
  (at level 61, m at next level, right associativity) : exc_scope.
Notation "m ;; k" := (bind m (fun _ => k))
  (at level 61, right associativity) : exc_scope.
Open Scope exc_scope.

(** ** live_data_collector.py *)

Module Collector.
Section WithNum.
Context {num : Type} {N : PyNum num}.

Record Quote : Type := mkQuote {
  bid_price : num;
  ask_price : num;
  bid_size : num;
  ask_size : num
}.

(** The dict [self.current_candle]. *)
Record CurrentCandle : Type := mkCurrent {
  cur_open : option num;
  cur_high : option num;
  cur_low : option num;
  cur_close : option num;
  cur_volume : num
}.

(** The dict [candle_data], an element of [self.candles]. *)
Record Candle : Type := mkCandle {
  timestamp : Z;
  open : option num;
  high : option num;
  low : option num;
  close : option num;
  volume : num
}.

Record LiveDataCollector : Type := mkCollector {
  candles : list Candle;
  current_candle : option CurrentCandle;
  candle_start : option Z
}.

(** [timedelta(minutes=5)], in microseconds. *)
Definition interval : Z := 5 * 60 * 1000000.

(** The state after [__init__]. *)
Definition init : LiveDataCollector :=
  {| candles := []; current_candle := None; candle_start := None |}.

Definition start_collection (now : Z) (s : LiveDataCollector)
  : LiveDataCollector :=
  {| candles := candles s;
     current_candle :=
       Some {| cur_open := None; cur_high := None; cur_low := None;
               cur_close := None; cur_volume := of_int 0 |};
     candle_start := Some now |}.

(** What [self.client.get_crypto_latest_quote(request).get(self.symbol)]
    does: it raises, or yields no quote, or yields a quote. *)
Inductive Fetch : Type :=
| FetchRaises
| FetchNone
| FetchQuote (q : Quote).

Definition get_crypto_latest_quote (f : Fetch)
  : Exc LiveDataCollector (option Quote) :=
  match f with
  | FetchRaises => raise
  | FetchNone => ret None
  | FetchQuote q => ret (Some q)
  end.

(** Python's [max(a, b)] and [min(a, b)]: the second argument replaces
    the first when it is greater (smaller). *)
Definition pymax (a b : num) : num := if nlt a b then b else a.
Definition pymin (a b : num) : num := if nlt b a then b else a.

Definition mid_price (q : Quote) : num :=
  ndiv (nadd (bid_price q) (ask_price q)) (of_int 2).

Definition mid_size (q : Quote) : num :=
  ndiv (nadd (bid_size q) (ask_size q)) (of_int 2).

(** The dict built from the current quote when a window starts. *)
Definition seeded (price vol : num) : CurrentCandle :=
  {| cur_open := Some price; cur_high := Some price; cur_low := Some price;
     cur_close := Some price; cur_volume := vol |}.

Definition set_candles (l : list Candle) (s : LiveDataCollector) :=
  {| candles := l; current_candle := current_candle s;
     candle_start := candle_start s |}.

Definition set_current_candle (c : option CurrentCandle)
  (s : LiveDataCollector) :=
  {| candles := candles s; current_candle := c;
     candle_start := candle_start s |}.

Definition set_candle_start (t : option Z) (s : LiveDataCollector) :=
  {| candles := candles s; current_candle := current_candle s;
     candle_start := t |}.

(** [self.current_candle[k] = v]: a [TypeError] when the attribute is
    [None]. *)
Definition assign (f : CurrentCandle -> CurrentCandle)
  : Exc LiveDataCollector unit :=
  cur <- (o <- gets current_candle ;; not_none o) ;;
  modify (set_current_candle (Some (f cur))).

Definition with_open v c := mkCurrent v (cur_high c) (cur_low c) (cur_close c) (cur_volume c).
Definition with_high v c := mkCurrent (cur_open c) v (cur_low c) (cur_close c) (cur_volume c).
Definition with_low v c := mkCurrent (cur_open c) (cur_high c) v (cur_close c) (cur_volume c).
Definition with_close v c := mkCurrent (cur_open c) (cur_high c) (cur_low c) v (cur_volume c).
Definition with_volume v c := mkCurrent (cur_open c) (cur_high c) (cur_low c) (cur_close c) v.

(** [self.current_candle[k]] *)
Definition item {A} (f : CurrentCandle -> A) : Exc LiveDataCollector A :=
  cur <- (o <- gets current_candle ;; not_none o) ;;
  ret (f cur).

(** The body of the [try] block of [update]. *)
Definition update_body (fetch : Fetch) (now : Z)
  : Exc LiveDataCollector bool :=
  quote <- get_crypto_latest_quote fetch ;;
  match quote with
  | None => ret false
  | Some q =>
    let price := mid_price q in
    let vol := mid_size q in
    start <- (o <- gets candle_start ;; not_none o) ;;
    if interval <=? now - start then
      o <- item cur_open ;;
      match o with
      | Some _ =>
        h <- item cur_high ;;
        l <- item cur_low ;;
        c <- item cur_close ;;
        v <- item cur_volume ;;
        let candle_data :=
          {| timestamp := start; open := o; high := h; low := l;
             close := c; volume := round6 v |} in
        modify (fun s => set_candles (candles s ++ [candle_data]) s) ;;
        (* the format [:.2f] of the progress line *)
        _ <- not_none (open candle_data) ;;
        _ <- not_none (high candle_data) ;;
        _ <- not_none (low candle_data) ;;
        _ <- not_none (close candle_data) ;;
        modify (set_candle_start (Some now)) ;;
        modify (set_current_candle (Some (seeded price vol))) ;;
        ret true
      | None =>
        modify (set_candle_start (Some now)) ;;
        modify (set_current_candle (Some (seeded price vol))) ;;
        ret false
      end
    else
      o <- item cur_open ;;
      match o with
      | None =>
        assign (with_open (Some price)) ;;
        assign (with_high (Some price)) ;;
        assign (with_low (Some price))
      | Some _ =>
        h <- (x <- item cur_high ;; not_none x) ;;
        assign (with_high (Some (pymax h price))) ;;
        l <- (x <- item cur_low ;; not_none x) ;;
        assign (with_low (Some (pymin l price)))
      end ;;
      assign (with_close (Some price)) ;;
      v <- item cur_volume ;;
      assign (with_volume (nadd v vol)) ;;
      ret false
  end.

(** [update]: the [except Exception] clause returns [False]. *)
Definition update (fetch : Fetch) (now : Z) (s : LiveDataCollector)
  : bool * LiveDataCollector :=
  match update_body fetch now s with
  | (Some r, s') => (r, s')
  | (None, s') => (false, s')
  end.

(** [get_dataframe]: the frame has one row per candle, in order. *)
Definition get_dataframe (s : LiveDataCollector) : option (list Candle) :=
  match candles s with
  | [] => None
  | l => Some l
  end.

Definition has_minimum_candles (min_count : Z) (s : LiveDataCollector)
  : bool :=
  min_count <=? Z.of_nat (length (candles s)).

(** A run of the collector: [start_collection] at [t0] on the fresh
    object, then one call to [update] per element of [ins] (what the
    fetch answers, and the clock read by that call). *)
Definition step (s : LiveDataCollector) (i : Fetch * Z) : LiveDataCollector :=
  snd (update (fst i) (snd i) s).

Definition run_from (s : LiveDataCollector) (ins : list (Fetch * Z))
  : LiveDataCollector :=
  fold_left step ins s.

Definition run (t0 : Z) (ins : list (Fetch * Z)) : LiveDataCollector :=
  run_from (start_collection t0 init) ins.

(** The quotes that a sequence of calls receives. *)
Definition quotes_of (ins : list (Fetch * Z)) : list Quote :=
  flat_map (fun i => match fst i with
                     | FetchQuote q => [q]
                     | _ => []
                     end) ins.

End WithNum.

Arguments Quote : clear implicits.
Arguments CurrentCandle : clear implicits.
Arguments Candle : clear implicits.
Arguments LiveDataCollector : clear implicits.
Arguments Fetch : clear implicits.

End Collector.

(** ** The quotes of a window, and what they aggregate to *)

Module Window.
Import Collector.
Section WithNum.
Context {num : Type} {N : PyNum num}.
Local Abbreviation Quote := (Collector.Quote num).
Local Abbreviation CurrentCandle := (Collector.CurrentCandle num).
Local Abbreviation Candle := (Collector.Candle num).
Local Abbreviation LiveDataCollector := (Collector.LiveDataCollector num).
Local Abbreviation Fetch := (Collector.Fetch num).

Definition prices (ws : list Quote) : list num := map mid_price ws.
Definition sizes (ws : list Quote) : list num := map mid_size ws.

Definition first_price (ws : list Quote) : option num := hd_error (prices ws).

Definition last_price (ws : list Quote) : option num :=
  hd_error (rev (prices ws)).

(** The greatest and the smallest of a sequence of numbers, taken from
    left to right. *)
Definition maximum (l : list num) : option num :=
  match l with
  | [] => None
  | p :: ps => Some (fold_left pymax ps p)
  end.

Definition minimum (l : list num) : option num :=
  match l with
  | [] => None
  | p :: ps => Some (fold_left pymin ps p)
  end.

(** The sum, from left to right, starting from the int 0. *)
Definition total (l : list num) : num := fold_left nadd l (of_int 0).

(** The accumulator that holds exactly the quotes [ws]. *)
Definition pending_of (ws : list Quote) : CurrentCandle :=
  {| cur_open := first_price ws;
     cur_high := maximum (prices ws);
     cur_low := minimum (prices ws);
     cur_close := last_price ws;
     cur_volume := total (sizes ws) |}.

(** The candle of the window that started at [w] and received [ws]. *)
Definition candle_of (w : Z) (ws : list Quote) : Candle :=
  {| timestamp := w;
     open := first_price ws;
     high := maximum (prices ws);
     low := minimum (prices ws);
     close := last_price ws;
     volume := round6 (total (sizes ws)) |}.

(** The candle made of the accumulator [cur] of the window started at
    [w]. *)
Definition finalize (w : Z) (cur : CurrentCandle) : Candle :=
  {| timestamp := w; open := cur_open cur; high := cur_high cur;
     low := cur_low cur; close := cur_close cur;
     volume := round6 (cur_volume cur) |}.

(** The call completes a window: a quote arrives at or after the
    boundary and the accumulator holds a price. *)
Definition completes (f : Fetch) (now : Z) (s : LiveDataCollector) : bool :=
  match f, candle_start s, current_candle s with
  | FetchQuote _, Some w, Some cur =>
      (interval <=? now - w) &&
      match cur_open cur with Some _ => true | None => false end
  | _, _, _ => false
  end.

(** The window that a call to [update] closes, if any. *)
Definition closed_by (f : Fetch) (now : Z) (s : LiveDataCollector)
  : list Candle :=
  match candle_start s, current_candle s with
  | Some w, Some cur => if completes f now s then [finalize w cur] else []
  | _, _ => []
  end.


(** *** The quotes of each window of a run

    A record of which quotes each window received, kept beside the
    collector: [done] are the windows whose candle was appended, with
    their start, [win] are the quotes of the open window, started at
    [win_start].  It follows the branches of [update]. *)
Record Log : Type := mkLog {
  done : list (Z * list Quote);
  win_start : Z;
  win : list Quote
}.

Definition log_step (l : Log) (i : Fetch * Z) : Log :=
  match fst i with
  | FetchQuote q =>
      if interval <=? snd i - win_start l then
        {| done := match win l with
                   | [] => done l
                   | _ :: _ => done l ++ [(win_start l, win l)]
                   end;
           win_start := snd i;
           win := [q] |}
      else
        {| done := done l; win_start := win_start l; win := win l ++ [q] |}
  | _ => l
  end.

Definition log_of (t0 : Z) (ins : list (Fetch * Z)) : Log :=
  fold_left log_step ins {| done := []; win_start := t0; win := [] |}.

(** A window opens at [w] holding the quotes [pre]: by
    [start_collection], or by the call to [update] that meets the
    boundary of the previous window of a run, whose quote starts the new
    window. *)
Inductive opens : Z -> list Quote -> LiveDataCollector -> Prop :=
| opens_start (now : Z) (s : LiveDataCollector) :
    opens now [] (start_collection now s)
| opens_boundary (t0 : Z) (ins : list (Fetch * Z)) (q : Quote) (now w : Z) :
    candle_start (run t0 ins) = Some w ->
    interval <= now - w ->
    opens now [q] (step (run t0 ins) (FetchQuote q, now)).

(** The accumulator holds either no price or all four. *)
Definition consistent (cur : CurrentCandle) : Prop :=
  cur_open cur = None \/
  (cur_high cur <> None /\ cur_low cur <> None /\ cur_close cur <> None).

(** The collector is started, its candles are in strictly increasing
    order of window start, and all started before the open window. *)
Definition chronological (s : LiveDataCollector) : Prop :=
  exists w cur,
    candle_start s = Some w /\
    current_candle s = Some cur /\
    consistent cur /\
    StronglySorted Z.lt (map timestamp (candles s)) /\
    Forall (fun c => timestamp c < w) (candles s).

(** The collector holds what the record of the windows says. *)
Definition tracks (l : Log) (s : LiveDataCollector) : Prop :=
  candle_start s = Some (win_start l) /\
  current_candle s = Some (pending_of (win l)) /\
  candles s = map (fun d => candle_of (fst d) (snd d)) (done l).

End WithNum.
End Window.

(** ** live_trader.py *)

Module Trader.
Import Collector.
Section WithNum.
Context {num : Type} {N : PyNum num}.
Local Abbreviation Quote := (Collector.Quote num).
Local Abbreviation Candle := (Collector.Candle num).
Local Abbreviation LiveDataCollector := (Collector.LiveDataCollector num).
Local Abbreviation Fetch := (Collector.Fetch num).

(** The entries of [CONFIG] that the loop reads. *)
Record Config : Type := mkConfig {
  MIN_CANDLES_REQUIRED : Z;
  LOG_SIGNALS_ONLY : bool;
  DISCORD_UPDATE_INTERVAL : option num
}.

(** The dict that [detect_signal] returns. *)
Record Signal : Type := mkSignal {
  signal_type : String.string;
  confidence : num;
  price : num;
  rsi : num
}.

(** The attributes of [IntegratedLiveTrader] that change or are tested
    during a run.  [discord] and [signal_detector] tell whether the
    attribute holds an object ([true]) or [None]. *)
Record IntegratedLiveTrader : Type := mkTrader {
  data_collector : LiveDataCollector;
  discord : bool;
  trading_enabled : bool;
  running : bool;
  last_discord_update : num;
  signal_detector : bool
}.

Inductive Ema : Type := EMA_FAST | EMA_MID | EMA_SLOW.

(** The calls made to the indicator library, the detector, the broker
    and the notifier. *)
Inductive Event : Type :=
| SendTradingEnabled (candle_count : nat)
| CalculateRsi
| CalculateAtr
| CalculateEma (period : Ema)
| DetectSignal
| GetAccount
| SendSignal (signal : Signal) (equity : num)
| GetAllPositions
| SendAccountUpdate
| DiscordClose.

Inductive Detect : Type :=
| DetectRaises
| DetectNone
| DetectSome (signal : Signal).

(** What the collaborators answer during one iteration of the loop. *)
Record Answers : Type := mkAnswers {
  fetch : Fetch;                    (* the quote client, in [update] *)
  now : Z;                          (* [datetime.now], in [update] *)
  send_trading_enabled_ok : bool;   (* [send_trading_enabled] returns *)
  indicators_ok : nat;              (* how many of the five indicator
                                       calls return before one raises *)
  status_line_ok : bool;            (* the values of the last row can be
                                       formatted for the status line *)
  signal_report_ok : bool;          (* the fields of the signal can be
                                       formatted for the report *)
  detect : Detect;                  (* [detect_signal] *)
  signal_equity : option num;       (* [float(get_account().equity)],
                                       [None] when it raises *)
  send_signal_ok : bool;            (* [send_signal] returns *)
  time1 : num;                      (* [time.time()], the test *)
  time2 : num;                      (* [time.time()], the assignment *)
  status_account_ok : bool;         (* [get_account] returns *)
  status_positions_ok : bool;       (* [get_all_positions] returns *)
  status_send_ok : bool             (* [send_account_update] returns *)
}.

(** The state threaded through the loop: the object and the calls made
    so far. *)
Definition World : Type := IntegratedLiveTrader * list Event.

Definition getb {A} (f : IntegratedLiveTrader -> A) : Exc World A :=
  gets (fun w => f (fst w)).

Definition modb (f : IntegratedLiveTrader -> IntegratedLiveTrader)
  : Exc World unit :=
  modify (fun w => (f (fst w), snd w)).

(** A call to a collaborator, which returns ([ok]) or raises. *)
Definition call (e : Event) (ok : bool) : Exc World unit :=
  modify (fun w => (fst w, snd w ++ [e])) ;;
  if ok then ret tt else raise.

Definition set_data_collector (c : LiveDataCollector)
  (b : IntegratedLiveTrader) :=
  mkTrader c (discord b) (trading_enabled b) (running b)
    (last_discord_update b) (signal_detector b).

Definition set_trading_enabled (v : bool) (b : IntegratedLiveTrader) :=
  mkTrader (data_collector b) (discord b) v (running b)
    (last_discord_update b) (signal_detector b).

Definition set_signal_detector (v : bool) (b : IntegratedLiveTrader) :=
  mkTrader (data_collector b) (discord b) (trading_enabled b) (running b)
    (last_discord_update b) v.

Definition set_last_discord_update (v : num) (b : IntegratedLiveTrader) :=
  mkTrader (data_collector b) (discord b) (trading_enabled b) (running b)
    v (signal_detector b).

Definition set_running (v : bool) (b : IntegratedLiveTrader) :=
  mkTrader (data_collector b) (discord b) (trading_enabled b) v
    (last_discord_update b) (signal_detector b).

(** [self.data_collector.update()] *)
Definition collector_update (a : Answers) : Exc World bool :=
  fun w =>
    let (r, c) := update (fetch a) (now a) (data_collector (fst w)) in
    (Some r, (set_data_collector c (fst w), snd w)).

(** The five indicator columns, computed in order. *)
Definition calculate_indicators (a : Answers) : Exc World unit :=
  call CalculateRsi (0 <? indicators_ok a)%nat ;;
  call CalculateAtr (1 <? indicators_ok a)%nat ;;
  call (CalculateEma EMA_FAST) (2 <? indicators_ok a)%nat ;;
  call (CalculateEma EMA_MID) (3 <? indicators_ok a)%nat ;;
  call (CalculateEma EMA_SLOW) (4 <? indicators_ok a)%nat.

Definition detect_signal (a : Answers) : Exc World (option Signal) :=
  call DetectSignal true ;;
  match detect a with
  | DetectRaises => raise
  | DetectNone => ret None
  | DetectSome sg => ret (Some sg)
  end.

(** [float(self.trading_client.get_account().equity)] *)
Definition get_account_equity (a : Answers) : Exc World num :=
  call GetAccount true ;;
  not_none (signal_equity a).

(** The status line printed between the indicators and the detector,
    outside of any [try]: the format of the last close and RSI raises
    when one of them is not a number. *)
Definition print_status_line (a : Answers) : Exc World unit :=
  if status_line_ok a then ret tt else raise.

(** The report of a signal, printed inside the [try] of the detector:
    the format of its fields raises when one of them is not what the
    format expects. *)
Definition print_signal_report (a : Answers) : Exc World unit :=
  if signal_report_ok a then ret tt else raise.

Definition on_new_candle (cfg : Config) (a : Answers) : Exc World unit :=
  df <- getb (fun b => get_dataframe (data_collector b)) ;;
  match df with
  | None => ret tt
  | Some rows =>
    if (length rows <? 100)%nat then ret tt
    else
      computed <- try_except (calculate_indicators a ;; ret true)
                             (ret false) ;;
      if negb computed then ret tt
      else
        print_status_line a ;;
        detector <- getb signal_detector ;;
        if detector then
          try_except
            (signal <- detect_signal a ;;
             match signal with
             | Some sg =>
               print_signal_report a ;;
               d <- getb discord ;;
               (if d then
                  try_except
                    (equity <- get_account_equity a ;;
                     call (SendSignal sg equity) (send_signal_ok a))
                    (ret tt)
                else ret tt) ;;
               (* [LOG_SIGNALS_ONLY] only prints *)
               ret tt
             | None => ret tt
             end)
            (ret tt)
        else ret tt
  end.

Definition send_status_update (a : Answers) : Exc World unit :=
  d <- getb discord ;;
  if negb d then ret tt
  else
    try_except
      (call GetAccount (status_account_ok a) ;;
       call GetAllPositions (status_positions_ok a) ;;
       call SendAccountUpdate (status_send_ok a))
      (ret tt).

(** The object once trading is enabled. *)
Definition enabled_of (b : IntegratedLiveTrader) : IntegratedLiveTrader :=
  set_signal_detector true (set_trading_enabled true b).

(** The block [if not self.trading_enabled:] of the loop. *)
Definition enable_trading (cfg : Config) (a : Answers) : Exc World unit :=
  enabled <- getb trading_enabled ;;
  if negb enabled then
    enough <- getb (fun b => has_minimum_candles (MIN_CANDLES_REQUIRED cfg)
                               (data_collector b)) ;;
    if enough then
      modb (set_trading_enabled true) ;;
      modb (set_signal_detector true) ;;
      d <- getb discord ;;
      if d then
        n <- getb (fun b => length (candles (data_collector b))) ;;
        call (SendTradingEnabled n) (send_trading_enabled_ok a)
      else ret tt
    else ret tt
  else ret tt.

(** The block [if self.trading_enabled and new_candle:]. *)
Definition dispatch_candle (cfg : Config) (a : Answers) (new_candle : bool)
  : Exc World unit :=
  enabled <- getb trading_enabled ;;
  if enabled && new_candle then on_new_candle cfg a else ret tt.

(** The block [if self.discord and self.trading_enabled:]. *)
Definition status_broadcast (cfg : Config) (a : Answers) : Exc World unit :=
  d <- getb discord ;;
  enabled <- getb trading_enabled ;;
  if d && enabled then
    last <- getb last_discord_update ;;
    let cooldown := match DISCORD_UPDATE_INTERVAL cfg with
                    | Some x => x
                    | None => of_int 300
                    end in
    if nlt cooldown (nsub (time1 a) last) then
      send_status_update a ;;
      modb (set_last_discord_update (time2 a))
    else ret tt
  else ret tt.

(** One iteration of the [while] loop of [run]. *)
Definition iteration (cfg : Config) (a : Answers) : Exc World unit :=
  new_candle <- collector_update a ;;
  enable_trading cfg a ;;
  dispatch_candle cfg a new_candle ;;
  status_broadcast cfg a.

(** The loop, one iteration per element of [answers].  The result lists,
    for each iteration, the object after it and the calls it made.  An
    exception that leaves an iteration ends the loop. *)
Fixpoint loop (cfg : Config) (answers : list Answers)
  (b : IntegratedLiveTrader) : list (IntegratedLiveTrader * list Event) :=
  match answers with
  | [] => []
  | a :: rest =>
    match iteration cfg a (b, []) with
    | (Some _, w) => w :: loop cfg rest (fst w)
    | (None, w) => [w]
    end
  end.

(** The object when the loop is entered: after [__init__], [initialize]
    (which leaves [discord] set or [None]) and [start_collection] at
    [t0]; [t] is the clock read by [__init__]. *)
Definition entered (d : bool) (t : num) (t0 : Z) : IntegratedLiveTrader :=
  {| data_collector := start_collection t0 init;
     discord := d;
     trading_enabled := false;
     running := true;
     last_discord_update := t;
     signal_detector := false |}.

(** [stop] *)
Definition stop (close_ok : bool) : Exc World unit :=
  modb (set_running false) ;;
  d <- getb discord ;;
  if d then try_except (call DiscordClose close_ok) (ret tt) else ret tt.

(** Calls to the indicator library or to the signal detector. *)
Definition evaluates (e : Event) : bool :=
  match e with
  | CalculateRsi | CalculateAtr | CalculateEma _ | DetectSignal => true
  | _ => false
  end.

Definition is_send_trading_enabled (e : Event) : bool :=
  match e with
  | SendTradingEnabled _ => true
  | _ => false
  end.

Definition is_send_signal (e : Event) : bool :=
  match e with
  | SendSignal _ _ => true
  | _ => false
  end.

(** The number of candles the object holds reaches the required one. *)
Definition reached (cfg : Config) (b : IntegratedLiveTrader) : bool :=
  has_minimum_candles (MIN_CANDLES_REQUIRED cfg) (data_collector b).

(** How many times an iteration sent the trading-enabled notification. *)
Definition notifications (evs : list Event) : nat :=
  length (filter is_send_trading_enabled evs).

(** An iteration of the collecting phase: too few candles, trading not
    enabled, no call to the indicators, the detector, the broker or the
    notifier. *)
Definition collecting (cfg : Config)
  (e : IntegratedLiveTrader * list Event) : Prop :=
  reached cfg (fst e) = false /\
  trading_enabled (fst e) = false /\
  snd e = [].

(** An iteration of the trading phase, after the one that enabled
    trading. *)
Definition trading (cfg : Config)
  (e : IntegratedLiveTrader * list Event) : Prop :=
  reached cfg (fst e) = true /\
  trading_enabled (fst e) = true /\
  notifications (snd e) = 0%nat.

(** The iteration that enables trading, in a run whose notifier is set
    ([d]) or not. *)
Definition enabling (cfg : Config) (d : bool)
  (e : IntegratedLiveTrader * list Event) : Prop :=
  reached cfg (fst e) = true /\
  trading_enabled (fst e) = true /\
  notifications (snd e) = (if d then 1 else 0)%nat /\
  (d = true ->
   hd_error (snd e) =
     Some (SendTradingEnabled (length (candles (data_collector (fst e)))))).

(** The notifications of a whole run. *)
Definition total_notifications
  (tr : list (IntegratedLiveTrader * list Event)) : nat :=
  list_sum (map (fun e => notifications (snd e)) tr).

End WithNum.

Arguments Config : clear implicits.
Arguments Signal : clear implicits.
Arguments IntegratedLiveTrader : clear implicits.
Arguments Event : clear implicits.
Arguments Detect : clear implicits.
Arguments Answers : clear implicits.
Arguments World : clear implicits.

End Trader.

(** ** Concrete runs, on the fixed-point numbers *)

Module Demo.
Import Collector Trader.

(** A quote whose bid and ask agree. *)
Definition flat_quote (p v : Z) : Quote Z :=
  {| bid_price := p; ask_price := p; bid_size := v; ask_size := v |}.

(** Four quotes and one empty answer, all inside the first window of a
    collector started at 0. *)
Definition one_window : list (Fetch Z * Z) :=
  [ (FetchQuote (flat_quote 100 1), 10); (FetchQuote (flat_quote 105 2), 20);
    (FetchNone, 25);
    (FetchQuote (flat_quote 95 3), 30); (FetchQuote (flat_quote 102 4), 40) ].

(** [n] quotes, one at each multiple of the interval: the first one
    starts a window, each of the others closes one. *)
Definition boundary_ticks (n : nat) : list (Fetch Z * Z) :=
  map (fun k => (FetchQuote (flat_quote 100 1), Z.of_nat k * interval))
    (seq 1 n).

(** A collector that holds [n] candles. *)
Definition history (n : nat) : LiveDataCollector Z :=
  run 0 (boundary_ticks (S n)).

Definition config (min_candles : Z) : Config Z :=
  {| MIN_CANDLES_REQUIRED := min_candles;
     LOG_SIGNALS_ONLY := true;
     DISCORD_UPDATE_INTERVAL := None |}.

(** Collaborators that all answer, a detector that finds nothing. *)
Definition answers (i : Fetch Z * Z) : Answers Z :=
  {| fetch := fst i; now := snd i;
     send_trading_enabled_ok := true;
     indicators_ok := 5;
     status_line_ok := true;
     signal_report_ok := true;
     detect := DetectNone;
     signal_equity := Some 0;
     send_signal_ok := true;
     time1 := 0; time2 := 0;
     status_account_ok := true;
     status_positions_ok := true;
     status_send_ok := true |}.

Definition polls (n : nat) : list (Answers Z) :=
  map answers (boundary_ticks n).

Import String.

Definition sample_signal : Signal Z :=
  {| signal_type := "BUY"%string; confidence := 1; price := 100; rsi := 25 |}.

(** A detector that finds [sample_signal], a broker that answers
    [equity] or raises. *)
Definition signal_answers (equity : option Z) : Answers Z :=
  {| fetch := FetchNone; now := 0;
     send_trading_enabled_ok := true;
     indicators_ok := 5;
     status_line_ok := true;
     signal_report_ok := true;
     detect := DetectSome sample_signal;
     signal_equity := equity;
     send_signal_ok := true;
     time1 := 0; time2 := 0;
     status_account_ok := true;
     status_positions_ok := true;
     status_send_ok := true |}.

(** A trader with a notifier, trading enabled, that holds [n]
    candles. *)
Definition trader_with (n : nat) : IntegratedLiveTrader Z :=
  {| data_collector := history n;
     discord := true;
     trading_enabled := true;
     running := true;
     last_discord_update := 0;
     signal_detector := true |}.

End Demo.

(** ** Runs of the collector: pace and content *)

Module RunShape.
Import Collector Window.
Section WithNum.
Context {num : Type} {N : PyNum num}.
Local Abbreviation LiveDataCollector := (Collector.LiveDataCollector num).
Local Abbreviation Fetch := (Collector.Fetch num).

(** The call receives a quote. *)
Definition carries_quote (i : Fetch * Z) : bool :=
  match fst i with
  | FetchQuote _ => true
  | _ => false
  end.

(** [y] is at least one interval after [x]. *)
Definition apart (x y : Z) : Prop := x + interval <= y.

(** The collector is started at or after [t0], each candle started at
    least one interval after the one before and not before [t0], and
    the open window started at least one interval after every candle. *)
Definition paced (t0 : Z) (s : LiveDataCollector) : Prop :=
  exists w cur,
    candle_start s = Some w /\
    current_candle s = Some cur /\
    consistent cur /\
    t0 <= w /\
    StronglySorted apart (map timestamp (candles s)) /\
    Forall (fun c => t0 <= timestamp c /\ apart (timestamp c) w) (candles s).

(** The accumulator of the collector holds a price. *)
Definition filled (s : LiveDataCollector) : Prop :=
  exists cur o, current_candle s = Some cur /\ cur_open cur = Some o.

End WithNum.
End RunShape.

(** ** live_trader.py: from the constructor to the loop *)

Module Startup.
Import Collector Trader.
Section WithNum.
Context {num : Type} {N : PyNum num}.
Local Abbreviation IntegratedLiveTrader := (Trader.IntegratedLiveTrader num).

(** The entries of the dict of [load_all_keys] that are read; [None] is
    a missing key. *)
Record Keys : Type := mkKeys {
  ALPACA_API_KEY : option String.string;
  ALPACA_SECRET_KEY : option String.string;
  DISCORD_TOKEN : option String.string;
  DISCORD_CHANNEL_ID : option String.string
}.

(** The truth value of [keys.get(k)]: a missing key and the empty string
    are false. *)
Definition truthy (v : option String.string) : bool :=
  match v with
  | None => false
  | Some String.EmptyString => false
  | Some (String.String _ _) => true
  end.

(** [__init__]: [None] is the [ValueError]; [enable_discord] is the
    truth value of [config.get('ENABLE_DISCORD')] and [t] what
    [time.time()] returns. *)
Definition construct (enable_discord : bool) (keys : Keys) (t : num)
  : option IntegratedLiveTrader :=
  if negb (truthy (ALPACA_API_KEY keys)) ||
     negb (truthy (ALPACA_SECRET_KEY keys))
  then None
  else
    Some {| data_collector := Collector.init;
            discord := if enable_discord
                       then truthy (DISCORD_TOKEN keys) &&
                            truthy (DISCORD_CHANNEL_ID keys)
                       else false;
            trading_enabled := false;
            running := false;
            last_discord_update := t;
            signal_detector := false |}.

(** The calls made before the loop. *)
Inductive StartupEvent : Type :=
| DiscordStart
| AccountCheck.

Definition StartupWorld : Type := IntegratedLiveTrader * list StartupEvent.

Definition set_discord (v : bool) (b : IntegratedLiveTrader) :=
  mkTrader (data_collector b) v (trading_enabled b) (running b)
    (last_discord_update b) (signal_detector b).

Definition startup_call (e : StartupEvent) (ok : bool)
  : Exc StartupWorld unit :=
  modify (fun w => (fst w, snd w ++ [e])) ;;
  if ok then ret tt else raise.

(** [initialize]: a notifier that fails to start is dropped, a broker
    that does not answer raises. *)
Definition initialize (start_ok account_ok : bool) : Exc StartupWorld unit :=
  d <- gets (fun w => discord (fst w)) ;;
  (if d then
     try_except (startup_call DiscordStart start_ok)
       (modify (fun w => (set_discord false (fst w), snd w)))
   else ret tt) ;;
  try_except (startup_call AccountCheck account_ok) raise.

(** [run], up to the [while]: [t0] is the clock read by
    [start_collection]. *)
Definition run_entry (start_ok account_ok : bool) (t0 : Z)
  : Exc StartupWorld unit :=
  modify (fun w => (set_running true (fst w), snd w)) ;;
  initialize start_ok account_ok ;;
  modify (fun w =>
            (set_data_collector
               (start_collection t0 (data_collector (fst w))) (fst w),
             snd w)).

End WithNum.

Arguments StartupWorld : clear implicits.

End Startup.

(** ** The calls of the blocks of the loop *)

Module Calls.
Import Collector Trader.
Section WithNum.
Context {num : Type} {N : PyNum num}.
Local Abbreviation Config := (Trader.Config num).
Local Abbreviation Answers := (Trader.Answers num).
Local Abbreviation Event := (Trader.Event num).
Local Abbreviation IntegratedLiveTrader := (Trader.IntegratedLiveTrader num).

(** The five indicator columns, in the order of [on_new_candle]. *)
Definition indicator_calls : list Event :=
  [CalculateRsi; CalculateAtr; CalculateEma EMA_FAST; CalculateEma EMA_MID;
   CalculateEma EMA_SLOW].

(** The calls of [send_status_update] when a notifier is set: each call
    is made when the one before returned. *)
Definition status_calls (a : Answers) : list Event :=
  GetAccount ::
  (if status_account_ok a then
     GetAllPositions ::
     (if status_positions_ok a then [SendAccountUpdate] else [])
   else []).

(** [self.config.get('DISCORD_UPDATE_INTERVAL', 300)] *)
Definition cooldown (cfg : Config) : num :=
  match DISCORD_UPDATE_INTERVAL cfg with
  | Some x => x
  | None => of_int 300
  end.

(** [time.time() - self.last_discord_update > cooldown] *)
Definition cooldown_elapsed (cfg : Config) (a : Answers)
  (b : IntegratedLiveTrader) : bool :=
  nlt (cooldown cfg) (nsub (time1 a) (last_discord_update b)).

(** [on_new_candle] reaches the status line and the line raises: the
    object holds at least 100 candles, the five indicators returned, and
    the values cannot be formatted. *)
Definition line_raises (a : Answers) (b : IntegratedLiveTrader) : bool :=
  (100 <=? length (candles (data_collector b)))%nat &&
  (5 <=? indicators_ok a)%nat &&
  negb (status_line_ok a).

(** What the calls to [update] of the iterations receive. *)
Definition ticks (answers : list Answers) : list (Collector.Fetch num * Z) :=
  map (fun a => (fetch a, now a)) answers.

(** The attributes that the loop does not touch, and the detector that
    goes with the gate. *)
Definition settled (d : bool) (b : IntegratedLiveTrader) : Prop :=
  signal_detector b = trading_enabled b /\ discord b = d /\
  running b = true.

End WithNum.
End Calls.

(** ** More concrete answers *)

Module Scenario.
Import Collector Trader Startup Demo.

(** The third indicator call raises. *)
Definition indicator_raises : Answers Z :=
  {| fetch := FetchNone; now := 0;
     send_trading_enabled_ok := true;
     indicators_ok := 2;
     status_line_ok := true;
     signal_report_ok := true;
     detect := DetectSome sample_signal;
     signal_equity := Some 0;
     send_signal_ok := true;
     time1 := 0; time2 := 0;
     status_account_ok := true;
     status_positions_ok := true;
     status_send_ok := true |}.

(** The detector raises. *)
Definition detector_raises : Answers Z :=
  {| fetch := FetchNone; now := 0;
     send_trading_enabled_ok := true;
     indicators_ok := 5;
     status_line_ok := true;
     signal_report_ok := true;
     detect := DetectRaises;
     signal_equity := Some 0;
     send_signal_ok := true;
     time1 := 0; time2 := 0;
     status_account_ok := true;
     status_positions_ok := true;
     status_send_ok := true |}.

(** No quote, the cooldown has elapsed and the broker does not answer
    the status request. *)
Definition status_fails : Answers Z :=
  {| fetch := FetchNone; now := 0;
     send_trading_enabled_ok := true;
     indicators_ok := 5;
     status_line_ok := true;
     signal_report_ok := true;
     detect := DetectNone;
     signal_equity := Some 0;
     send_signal_ok := true;
     time1 := 1000; time2 := 1001;
     status_account_ok := false;
     status_positions_ok := true;
     status_send_ok := true |}.

(** The notifier raises when told that trading is enabled. *)
Definition notifier_raises (i : Fetch Z * Z) : Answers Z :=
  {| fetch := fst i; now := snd i;
     send_trading_enabled_ok := false;
     indicators_ok := 5;
     status_line_ok := true;
     signal_report_ok := true;
     detect := DetectNone;
     signal_equity := Some 0;
     send_signal_ok := true;
     time1 := 0; time2 := 0;
     status_account_ok := true;
     status_positions_ok := true;
     status_send_ok := true |}.

(** The indicators return, the status line cannot be formatted. *)
Definition status_line_raises (i : Fetch Z * Z) : Answers Z :=
  {| fetch := fst i; now := snd i;
     send_trading_enabled_ok := true;
     indicators_ok := 5;
     status_line_ok := false;
     signal_report_ok := true;
     detect := DetectSome sample_signal;
     signal_equity := Some 0;
     send_signal_ok := true;
     time1 := 0; time2 := 0;
     status_account_ok := true;
     status_positions_ok := true;
     status_send_ok := true |}.

(** The detector finds a signal whose report cannot be formatted. *)
Definition report_raises : Answers Z :=
  {| fetch := FetchNone; now := 0;
     send_trading_enabled_ok := true;
     indicators_ok := 5;
     status_line_ok := true;
     signal_report_ok := false;
     detect := DetectSome sample_signal;
     signal_equity := Some 0;
     send_signal_ok := true;
     time1 := 0; time2 := 0;
     status_account_ok := true;
     status_positions_ok := true;
     status_send_ok := true |}.

(** The quote at the [n]-th multiple of the interval, a detector that
    finds [sample_signal]. *)
Definition signal_on_candle (n : Z) : Answers Z :=
  {| fetch := FetchQuote (flat_quote 100 1); now := n * interval;
     send_trading_enabled_ok := true;
     indicators_ok := 5;
     status_line_ok := true;
     signal_report_ok := true;
     detect := DetectSome sample_signal;
     signal_equity := Some 0;
     send_signal_ok := true;
     time1 := 0; time2 := 0;
     status_account_ok := true;
     status_positions_ok := true;
     status_send_ok := true |}.

(** A trader without notifier, trading enabled, that holds [n]
    candles. *)
Definition silent_trader (n : nat) : IntegratedLiveTrader Z :=
  {| data_collector := history n;
     discord := false;
     trading_enabled := true;
     running := true;
     last_discord_update := 0;
     signal_detector := true |}.

Import String.

Definition all_keys : Keys :=
  {| ALPACA_API_KEY := Some "key"%string;
     ALPACA_SECRET_KEY := Some "secret"%string;
     DISCORD_TOKEN := Some "token"%string;
     DISCORD_CHANNEL_ID := Some "42"%string |}.

End Scenario.

(** * Properties *)

Module CollectorFacts.
Import Collector Window.

Ltac run_monad :=
  unfold update, update_body, item, assign, not_none, get_crypto_latest_quote,
    bind, gets, modify, ret, raise; cbn.
Section WithNum.
Context {num : Type} {N : PyNum num}.
Local Abbreviation Quote := (Collector.Quote num).
Local Abbreviation CurrentCandle := (Collector.CurrentCandle num).
Local Abbreviation Candle := (Collector.Candle num).
Local Abbreviation LiveDataCollector := (Collector.LiveDataCollector num).
Local Abbreviation Fetch := (Collector.Fetch num).

Lemma interval_pos : 0 < interval.
Proof. reflexivity. Qed.

Local Opaque interval.

Lemma update_no_quote (now : Z) (s : LiveDataCollector) :
  update FetchRaises now s = (false, s) /\ update FetchNone now s = (false, s).
Proof. split; reflexivity. Qed.

Lemma update_not_started (f : Fetch) (now : Z) (s : LiveDataCollector) :
  candle_start s = None \/ current_candle s = None ->
  update f now s = (false, s).
Proof.
  intros Hs. destruct f as [| |q]; try reflexivity.
  destruct s as [cs cur start]; cbn in Hs. run_monad.
  destruct start as [w|]; cbn; [|reflexivity].
  destruct Hs as [Hs|Hs]; [discriminate|]. subst cur.
  destruct (interval <=? now - w); reflexivity.
Qed.

(** A quote inside the open window is added to the accumulator. *)
Lemma update_in_window (q : Quote) (now w : Z) (ws : list Quote)
  (s : LiveDataCollector) :
  candle_start s = Some w ->
  current_candle s = Some (pending_of ws) ->
  now - w < interval ->
  update (FetchQuote q) now s =
    (false, set_current_candle (Some (pending_of (ws ++ [q]))) s).
Proof.
  intros Hw Hc Hlt. destruct s as [cs cur start]; cbn in Hw, Hc; subst.
  apply Z.leb_gt in Hlt. run_monad. rewrite Hlt.
  unfold set_current_candle, pending_of, first_price, last_price, total,
    sizes, prices; cbn.
  rewrite !map_app, rev_app_distr, fold_left_app; cbn.
  destruct ws as [|q0 ws]; cbn.
  - reflexivity.
  - rewrite !fold_left_app; cbn. reflexivity.
Qed.

Lemma update_candles (f : Fetch) (now : Z) (s : LiveDataCollector) :
  candles (snd (update f now s)) = candles s ++ closed_by f now s.
Proof.
  destruct s as [cs cur start].
  destruct start as [w|], cur as [[o h l c v]|];
    try (rewrite update_not_started by (cbn; auto); cbn;
         now rewrite app_nil_r).
  destruct f as [| |q]; unfold closed_by, completes; cbn;
    try (now rewrite app_nil_r).
  run_monad. destruct (interval <=? now - w); cbn.
  - destruct o, h, l, c; cbn; try reflexivity; now rewrite app_nil_r.
  - rewrite ?app_nil_r. destruct o, h, l, c; cbn; reflexivity.
Qed.

Lemma update_result (f : Fetch) (now : Z) (s : LiveDataCollector) :
  fst (update f now s) = true -> completes f now s = true.
Proof.
  destruct s as [cs cur start].
  destruct start as [w|], cur as [[o h l c v]|];
    try (rewrite update_not_started by (cbn; auto); cbn; discriminate).
  destruct f as [| |q]; unfold completes; cbn; try discriminate.
  run_monad. destruct (interval <=? now - w); cbn.
  - destruct o, h, l, c; cbn; congruence.
  - destruct o, h, l, c; cbn; congruence.
Qed.

(** At the boundary with an accumulator that holds no price: the window
    restarts from the current quote, nothing is appended. *)
Lemma update_boundary_empty (q : Quote) (now w : Z) (cur : CurrentCandle)
  (s : LiveDataCollector) :
  candle_start s = Some w ->
  current_candle s = Some cur ->
  cur_open cur = None ->
  interval <= now - w ->
  update (FetchQuote q) now s =
    (false, {| candles := candles s;
               current_candle := Some (seeded (mid_price q) (mid_size q));
               candle_start := Some now |}).
Proof.
  intros Hw Hc Ho Hle. destruct s as [cs c start]; cbn in Hw, Hc; subst.
  destruct cur as [o h l c v]; cbn in Ho; subst.
  apply Z.leb_le in Hle. run_monad. rewrite Hle. reflexivity.
Qed.

(** At the boundary with an accumulator that holds quotes: its candle
    is appended and the window restarts from the current quote. *)
Lemma update_boundary_emit (q q0 : Quote) (now w : Z) (ws : list Quote)
  (s : LiveDataCollector) :
  candle_start s = Some w ->
  current_candle s = Some (pending_of (q0 :: ws)) ->
  interval <= now - w ->
  update (FetchQuote q) now s =
    (true, {| candles := candles s ++ [candle_of w (q0 :: ws)];
              current_candle := Some (seeded (mid_price q) (mid_size q));
              candle_start := Some now |}).
Proof.
  intros Hw Hc Hle. destruct s as [cs c start]; cbn in Hw, Hc; subst.
  apply Z.leb_le in Hle. run_monad. rewrite Hle. cbn.
  unfold candle_of, first_price, last_price, prices, sizes; cbn.
  destruct (rev (map mid_price ws) ++ [mid_price q0]) as [|x xs] eqn:E.
  - now destruct (rev (map mid_price ws)).
  - reflexivity.
Qed.

Lemma seeded_pending {L : PyNumLaws N} (q : Quote) :
  seeded (mid_price q) (mid_size q) = pending_of [q].
Proof.
  unfold seeded, pending_of, total; cbn. now rewrite nadd_0_l.
Qed.

Lemma update_keeps_current (f : Fetch) (now : Z) (s : LiveDataCollector) :
  current_candle s <> None -> current_candle (snd (update f now s)) <> None.
Proof.
  intros Hs. destruct s as [cs cur start]; cbn in Hs.
  destruct start as [w|];
    [|rewrite update_not_started by (cbn; auto); assumption].
  destruct cur as [[o h l c v]|]; [|congruence].
  destruct f as [| |q]; cbn; try discriminate.
  run_monad. destruct (interval <=? now - w); cbn;
    destruct o, h, l, c; cbn; discriminate.
Qed.

Lemma closed_by_timestamp (f : Fetch) (now : Z) (s : LiveDataCollector)
  (c : Candle) :
  In c (closed_by f now s) -> candle_start s = Some (timestamp c).
Proof.
  unfold closed_by. destruct (candle_start s) as [w|]; [|intros []].
  destruct (current_candle s) as [cur|]; [|intros []].
  destruct (completes f now s); [|intros []].
  intros [<-|[]]. reflexivity.
Qed.

Lemma closed_by_length (f : Fetch) (now : Z) (s : LiveDataCollector) :
  length (closed_by f now s) = if completes f now s then 1%nat else 0%nat.
Proof.
  unfold closed_by, completes.
  destruct f as [| |q], (candle_start s) as [w|], (current_candle s) as [cur|];
    try reflexivity.
  destruct (_ && _); reflexivity.
Qed.

(** *** Chronological order *)

Lemma sorted_snoc (l : list Z) (y : Z) :
  StronglySorted Z.lt l -> Forall (fun x => x < y) l ->
  StronglySorted Z.lt (l ++ [y]).
Proof.
  induction 1 as [|x l Hl IH Hx]; intros Hy; cbn.
  - repeat constructor.
  - inversion Hy as [|? ? Hxy Hly]; subst. constructor; [auto|].
    apply Forall_app. split; [assumption|]. repeat constructor. assumption.
Qed.

Lemma start_collection_chronological (t0 : Z) :
  chronological (start_collection t0 init).
Proof.
  exists t0. eexists. cbn. repeat split.
  - now left.
  - constructor.
  - constructor.
Qed.

Lemma step_chronological (s : LiveDataCollector) (i : Fetch * Z) :
  chronological s -> chronological (step s i).
Proof.
  intros (w & cur & Hw & Hc & Hcons & Hsort & Hlt).
  destruct i as [f now]. unfold step; cbn [fst snd].
  destruct f as [| |q]; try (exists w, cur; now repeat split).
  destruct s as [cs c start]; cbn in Hw, Hc, Hsort, Hlt; subst.
  destruct cur as [o h l c v]. unfold chronological.
  pose proof interval_pos as Hpos.
  run_monad. destruct (Z.leb_spec interval (now - w)) as [Hle|Hgt]; cbn.
  - destruct o as [o|]; cbn.
    + destruct Hcons as [Ho|(Hh & Hl & Hcl)]; [discriminate|].
      cbn in Hh, Hl, Hcl.
      destruct h as [h|]; [|congruence]. destruct l as [l|]; [|congruence].
      destruct c as [c|]; [|congruence]. cbn.
      exists now. eexists. repeat split; cbn.
      * right. repeat split; discriminate.
      * rewrite map_app. cbn. apply sorted_snoc; [assumption|].
        apply Forall_map. assumption.
      * apply Forall_app. split.
        -- eapply Forall_impl; [|exact Hlt]. cbn. intros; lia.
        -- repeat constructor. cbn. lia.
    + exists now. eexists. repeat split; cbn.
      * right. repeat split; discriminate.
      * assumption.
      * eapply Forall_impl; [|exact Hlt]. cbn. intros; lia.
  - destruct o as [o|]; cbn.
    + destruct Hcons as [Ho|(Hh & Hl & Hcl)]; [discriminate|].
      cbn in Hh, Hl, Hcl.
      destruct h as [h|]; [|congruence]. destruct l as [l|]; [|congruence].
      cbn. exists w. eexists. repeat split; cbn; try assumption.
      right. repeat split; discriminate.
    + exists w. eexists. repeat split; cbn; try assumption.
      right. repeat split; discriminate.
Qed.

Lemma run_from_chronological (ins : list (Fetch * Z)) (s : LiveDataCollector) :
  chronological s -> chronological (run_from s ins).
Proof.
  revert s. induction ins as [|i ins IH]; intros s Hs; cbn; [assumption|].
  apply IH. now apply step_chronological.
Qed.

Lemma run_chronological (t0 : Z) (ins : list (Fetch * Z)) :
  chronological (run t0 ins).
Proof. apply run_from_chronological, start_collection_chronological. Qed.

(** *** Quotes inside one window *)

Lemma run_from_in_window (ins : list (Fetch * Z)) (w : Z)
  (pre : list Quote) (s : LiveDataCollector) :
  candle_start s = Some w ->
  current_candle s = Some (pending_of pre) ->
  Forall (fun i => snd i - w < interval) ins ->
  run_from s ins =
    set_current_candle (Some (pending_of (pre ++ quotes_of ins))) s.
Proof.
  revert pre s. induction ins as [|[f now] ins IH]; intros pre s Hw Hc Hin.
  - cbn. rewrite app_nil_r. destruct s; cbn in *; now subst.
  - inversion Hin as [|? ? Hnow Hrest]; subst. cbn [snd] in Hnow.
    cbn [run_from fold_left]. unfold step at 2; cbn [fst snd].
    destruct f as [| |q]; cbn [update quotes_of flat_map fst app].
    + apply (IH pre s); assumption.
    + apply (IH pre s); assumption.
    + rewrite update_in_window with (w:=w) (ws:=pre) by assumption; cbn [snd].
      fold (run_from (set_current_candle (Some (pending_of (pre ++ [q]))) s)
              ins).
      rewrite (IH (pre ++ [q])); try assumption; try reflexivity.
      rewrite <- app_assoc. reflexivity.
Qed.

(** *** The record of the windows *)

Lemma log_step_nonempty (l : Log) (i : Fetch * Z) :
  Forall (fun d => snd d <> []) (done l) ->
  Forall (fun d => snd d <> []) (done (log_step l i)).
Proof.
  intros Hl. unfold log_step. destruct (fst i) as [| |q]; try assumption.
  destruct (interval <=? snd i - win_start l); cbn; [|assumption].
  destruct (win l) as [|q0 ws] eqn:E; [assumption|].
  apply Forall_app. split; [assumption|]. repeat constructor. discriminate.
Qed.

Lemma log_step_partition (l : Log) (i : Fetch * Z) :
  concat (map snd (done (log_step l i))) ++ win (log_step l i) =
  (concat (map snd (done l)) ++ win l) ++ quotes_of [i].
Proof.
  unfold log_step, quotes_of; cbn.
  destruct (fst i) as [| |q]; cbn; try (now rewrite app_nil_r).
  destruct (interval <=? snd i - win_start l); cbn.
  - destruct (win l) as [|q0 ws] eqn:E; cbn.
    + now rewrite app_nil_r.
    + rewrite map_app, concat_app; cbn. now rewrite !app_nil_r.
  - now rewrite !app_assoc.
Qed.

Lemma quotes_of_app (xs ys : list (Fetch * Z)) :
  quotes_of (xs ++ ys) = quotes_of xs ++ quotes_of ys.
Proof. unfold quotes_of. apply flat_map_app. Qed.

Lemma log_fold_facts (ins : list (Fetch * Z)) (l : Log) :
  Forall (fun d => snd d <> []) (done l) ->
  Forall (fun d => snd d <> []) (done (fold_left log_step ins l)) /\
  concat (map snd (done (fold_left log_step ins l))) ++
    win (fold_left log_step ins l) =
  (concat (map snd (done l)) ++ win l) ++ quotes_of ins.
Proof.
  revert l. induction ins as [|i ins IH]; intros l Hl; cbn [fold_left].
  - split; [assumption|]. cbn. now rewrite app_nil_r.
  - destruct (IH (log_step l i) (log_step_nonempty l i Hl)) as [H1 H2].
    split; [assumption|]. rewrite H2, log_step_partition.
    change (i :: ins) with ([i] ++ ins).
    rewrite quotes_of_app, <- !app_assoc. reflexivity.
Qed.

Section Tracking.
Context {L : PyNumLaws N}.

Lemma tracks_start (t0 : Z) :
  tracks {| done := []; win_start := t0; win := [] |}
    (start_collection t0 init).
Proof. repeat split. Qed.

Lemma tracks_step (l : Log) (s : LiveDataCollector) (i : Fetch * Z) :
  tracks l s -> tracks (log_step l i) (step s i).
Proof.
  intros (Hw & Hc & Hd). destruct i as [f now].
  unfold step, log_step; cbn [fst snd].
  destruct f as [| |q]; try (now repeat split).
  destruct (Z.leb_spec interval (now - win_start l)) as [Hle|Hgt].
  - destruct (win l) as [|q0 ws] eqn:E.
    + rewrite update_boundary_empty
        with (w:=win_start l) (cur:=pending_of []) by (assumption || reflexivity).
      repeat split; cbn; [|assumption]. now rewrite seeded_pending.
    + rewrite update_boundary_emit
        with (w:=win_start l) (q0:=q0) (ws:=ws) by assumption.
      repeat split; cbn; [now rewrite seeded_pending|].
      rewrite map_app, Hd. reflexivity.
  - rewrite update_in_window
      with (w:=win_start l) (ws:=win l) by assumption.
    repeat split; cbn; assumption.
Qed.

Lemma tracks_fold (ins : list (Fetch * Z)) (l : Log) (s : LiveDataCollector) :
  tracks l s -> tracks (fold_left log_step ins l) (run_from s ins).
Proof.
  revert l s. induction ins as [|i ins IH]; intros l s Hl; cbn; [assumption|].
  apply IH. now apply tracks_step.
Qed.

Lemma tracks_run (t0 : Z) (ins : list (Fetch * Z)) :
  tracks (log_of t0 ins) (run t0 ins).
Proof. apply tracks_fold, tracks_start. Qed.

End Tracking.

(** *** The greatest and the smallest price *)

Section Extrema.
Context {L : PyNumLaws N}.

Lemma nlt_asym (x y : num) : nlt x y = true -> nlt y x = false.
Proof.
  intros Hxy. destruct (nlt y x) eqn:Hyx; [|reflexivity].
  pose proof (nlt_trans _ _ _ Hxy Hyx) as Hxx.
  rewrite nlt_irrefl in Hxx. discriminate.
Qed.

Lemma pymax_cases (p a : num) :
  (pymax p a = a /\ nlt p a = true) \/ (pymax p a = p /\ nlt p a = false).
Proof. unfold pymax. destruct (nlt p a); auto. Qed.

Lemma pymin_cases (p a : num) :
  (pymin p a = a /\ nlt a p = true) \/ (pymin p a = p /\ nlt a p = false).
Proof. unfold pymin. destruct (nlt a p); auto. Qed.

Lemma fold_pymax_from (ps : list num) (p : num) :
  fold_left pymax ps p = p \/ nlt p (fold_left pymax ps p) = true.
Proof.
  revert p. induction ps as [|a ps IH]; intros p; cbn; [now left|].
  destruct (pymax_cases p a) as [[E Hpa]|[E Hpa]]; rewrite E.
  - right. destruct (IH a) as [->|Ha]; [assumption|].
    exact (nlt_trans _ _ _ Hpa Ha).
  - apply IH.
Qed.

Lemma fold_pymax_in (ps : list num) (p : num) :
  In (fold_left pymax ps p) (p :: ps).
Proof.
  revert p. induction ps as [|a ps IH]; intros p; cbn; [now left|].
  destruct (IH (pymax p a)) as [E|E]; [|auto].
  rewrite <- E. destruct (pymax_cases p a) as [[-> _]|[-> _]]; auto.
Qed.

Lemma fold_pymax_upper (ps : list num) (p x : num) :
  In x (p :: ps) -> nlt (fold_left pymax ps p) x = false.
Proof.
  revert p x. induction ps as [|a ps IH]; intros p x Hx.
  - destruct Hx as [<-|[]]. apply nlt_irrefl.
  - cbn. pose proof (fold_pymax_from ps (pymax p a)) as Hm.
    destruct Hx as [<-|[<-|Hx]]; [| |apply IH; now right];
      destruct (pymax_cases p a) as [[E Hpa]|[E Hpa]]; rewrite E in *.
    + destruct Hm as [->|Hm]; [now apply nlt_asym|].
      apply nlt_asym. exact (nlt_trans _ _ _ Hpa Hm).
    + destruct Hm as [->|Hm]; [apply nlt_irrefl|now apply nlt_asym].
    + destruct Hm as [->|Hm]; [apply nlt_irrefl|now apply nlt_asym].
    + destruct Hm as [->|Hm]; [assumption|].
      destruct (nlt (fold_left pymax ps p) a) eqn:Hra; [|reflexivity].
      rewrite (nlt_trans _ _ _ Hm Hra) in Hpa. discriminate.
Qed.

Lemma fold_pymin_from (ps : list num) (p : num) :
  fold_left pymin ps p = p \/ nlt (fold_left pymin ps p) p = true.
Proof.
  revert p. induction ps as [|a ps IH]; intros p; cbn; [now left|].
  destruct (pymin_cases p a) as [[E Hap]|[E Hap]]; rewrite E.
  - right. destruct (IH a) as [->|Ha]; [assumption|].
    exact (nlt_trans _ _ _ Ha Hap).
  - apply IH.
Qed.

Lemma fold_pymin_in (ps : list num) (p : num) :
  In (fold_left pymin ps p) (p :: ps).
Proof.
  revert p. induction ps as [|a ps IH]; intros p; cbn; [now left|].
  destruct (IH (pymin p a)) as [E|E]; [|auto].
  rewrite <- E. destruct (pymin_cases p a) as [[-> _]|[-> _]]; auto.
Qed.

Lemma fold_pymin_lower (ps : list num) (p x : num) :
  In x (p :: ps) -> nlt x (fold_left pymin ps p) = false.
Proof.
  revert p x. induction ps as [|a ps IH]; intros p x Hx.
  - destruct Hx as [<-|[]]. apply nlt_irrefl.
  - cbn. pose proof (fold_pymin_from ps (pymin p a)) as Hm.
    destruct Hx as [<-|[<-|Hx]]; [| |apply IH; now right];
      destruct (pymin_cases p a) as [[E Hap]|[E Hap]]; rewrite E in *.
    + destruct Hm as [->|Hm]; [now apply nlt_asym|].
      apply nlt_asym. exact (nlt_trans _ _ _ Hm Hap).
    + destruct Hm as [->|Hm]; [apply nlt_irrefl|now apply nlt_asym].
    + destruct Hm as [->|Hm]; [apply nlt_irrefl|now apply nlt_asym].
    + destruct Hm as [->|Hm]; [assumption|].
      destruct (nlt a (fold_left pymin ps p)) eqn:Hra; [|reflexivity].
      rewrite (nlt_trans _ _ _ Hra Hm) in Hap. discriminate.
Qed.

(** [maximum] yields an element that no element exceeds. *)
Lemma maximum_spec (l : list num) (m : num) :
  maximum l = Some m -> In m l /\ forall x, In x l -> nlt m x = false.
Proof.
  destruct l as [|p ps]; cbn; [discriminate|]. intros [= <-]. split.
  - apply fold_pymax_in.
  - intros x Hx. now apply fold_pymax_upper.
Qed.

(** [minimum] yields an element that exceeds no element. *)
Lemma minimum_spec (l : list num) (m : num) :
  minimum l = Some m -> In m l /\ forall x, In x l -> nlt x m = false.
Proof.
  destruct l as [|p ps]; cbn; [discriminate|]. intros [= <-]. split.
  - apply fold_pymin_in.
  - intros x Hx. now apply fold_pymin_lower.
Qed.

End Extrema.

End WithNum.
End CollectorFacts.

(** ** The fixed-point numbers obey the laws *)

#[export] Instance Z_PyNumLaws : PyNumLaws Z_PyNum.
Proof.
  split; cbn.
  - intros x. reflexivity.
  - apply Z.ltb_irrefl.
  - intros x y z Hxy Hyz. apply Z.ltb_lt in Hxy, Hyz. apply Z.ltb_lt. lia.
Qed.

(** ** The candle aggregation *)

Module CollectorClaims.
Import Collector Window CollectorFacts Demo.

Lemma opens_state {num : Type} {N : PyNum num} {L : PyNumLaws N}
  (w : Z) (pre : list (Quote num)) (s : LiveDataCollector num) :
  opens w pre s ->
  candle_start s = Some w /\ current_candle s = Some (pending_of pre).
Proof.
  intros Ho. destruct Ho as [now s|t0 ins q now w0 Hw Hle].
  - split; reflexivity.
  - destruct (tracks_run t0 ins) as (Hw' & Hc & _).
    assert (w0 = win_start (log_of t0 ins)) as -> by congruence.
    unfold step; cbn [fst snd].
    destruct (win (log_of t0 ins)) as [|q0 ws] eqn:E.
    + rewrite update_boundary_empty
        with (w:=win_start (log_of t0 ins)) (cur:=pending_of [])
        by (assumption || reflexivity).
      cbn. now rewrite seeded_pending.
    + rewrite update_boundary_emit
        with (w:=win_start (log_of t0 ins)) (q0:=q0) (ws:=ws) by assumption.
      cbn. now rewrite seeded_pending.
Qed.

Lemma last_price_map {num : Type} {N : PyNum num} (ws : list (Quote num)) :
  last_price ws = option_map mid_price (hd_error (rev ws)).
Proof.
  unfold last_price, prices. rewrite <- map_rev.
  now destruct (rev ws).
Qed.

(** The candle that the call meeting the boundary appends, in terms of
    the quotes of the window. *)
Lemma window_candle {num : Type} {N : PyNum num} (L : PyNumLaws N)
  (w : Z) (pre : list (Quote num)) (s : LiveDataCollector num)
  (ins : list (Fetch num * Z)) (qb : Quote num) (tb : Z) :
  opens w pre s ->
  Forall (fun i => snd i - w < interval) ins ->
  pre ++ quotes_of ins <> [] ->
  interval <= tb - w ->
  let ws := pre ++ quotes_of ins in
  let r := update (FetchQuote qb) tb (run_from s ins) in
  exists c qf ql hi lo,
    hd_error ws = Some qf /\ hd_error (rev ws) = Some ql /\
    fst r = true /\
    candles (snd r) = candles s ++ [c] /\
    timestamp c = w /\
    open c = Some (mid_price qf) /\
    close c = Some (mid_price ql) /\
    high c = Some hi /\ In hi (prices ws) /\
    (forall p, In p (prices ws) -> nlt hi p = false) /\
    low c = Some lo /\ In lo (prices ws) /\
    (forall p, In p (prices ws) -> nlt p lo = false) /\
    volume c = round6 (total (sizes ws)).
Proof.
  intros Ho Hin Hne Hle ws r.
  destruct (opens_state Ho) as [Hw Hc].
  assert (Hr : r = (true,
              {| candles := candles s ++ [candle_of w ws];
                 current_candle := Some (seeded (mid_price qb) (mid_size qb));
                 candle_start := Some tb |})).
  { subst r. rewrite run_from_in_window with (w:=w) (pre:=pre) by assumption.
    fold ws.
    destruct ws as [|q0 rest] eqn:E; [contradiction|].
    rewrite update_boundary_emit with (w:=w) (q0:=q0) (ws:=rest);
      [reflexivity|assumption|reflexivity|assumption]. }
  rewrite Hr; cbn [fst snd candles].
  destruct ws as [|qf rest] eqn:E; [contradiction|].
  destruct (rev (qf :: rest)) as [|ql front] eqn:Er.
  { apply (f_equal (@length _)) in Er. rewrite length_rev in Er.
    discriminate. }
  destruct (maximum (prices (qf :: rest))) as [hi|] eqn:Ehi; [|discriminate].
  destruct (minimum (prices (qf :: rest))) as [lo|] eqn:Elo; [|discriminate].
  destruct (maximum_spec _ Ehi) as [Hhi1 Hhi2].
  destruct (minimum_spec _ Elo) as [Hlo1 Hlo2].
  exists (candle_of w (qf :: rest)), qf, ql, hi, lo.
  unfold candle_of; cbn [timestamp open high low close volume].
  rewrite last_price_map, Er, Ehi, Elo.
  repeat split; auto.
Qed.

(** C1.  The quotes of one window: those the window holds when it opens
    (none after [start_collection], the quote that met the boundary of
    the previous window otherwise) and those received while less than
    the interval has elapsed since the window start.  With the mid-price
    of a quote being (bid_price + ask_price) / 2 and its mid-size
    (bid_size + ask_size) / 2, the call that meets the next boundary
    appends the candle whose open is the mid-price of the first of them,
    whose close is the mid-price of the last, whose high is one of their
    mid-prices that none exceeds, whose low is one that exceeds none,
    and whose volume is the rounded sum of their mid-sizes. *)
Theorem C1_window_candle {num : Type} {N : PyNum num} (L : PyNumLaws N)
  (w : Z) (pre : list (Quote num)) (s : LiveDataCollector num)
  (ins : list (Fetch num * Z)) (qb : Quote num) (tb : Z) :
  opens w pre s ->
  Forall (fun i => snd i - w < interval) ins ->
  pre ++ quotes_of ins <> [] ->
  interval <= tb - w ->
  let ws := pre ++ quotes_of ins in
  let mid := fun q : Quote num =>
               ndiv (nadd (bid_price q) (ask_price q)) (of_int 2) in
  let size := fun q : Quote num =>
                ndiv (nadd (bid_size q) (ask_size q)) (of_int 2) in
  let r := update (FetchQuote qb) tb (run_from s ins) in
  exists c qf ql hi lo,
    hd_error ws = Some qf /\ hd_error (rev ws) = Some ql /\
    fst r = true /\
    candles (snd r) = candles s ++ [c] /\
    timestamp c = w /\
    open c = Some (mid qf) /\
    close c = Some (mid ql) /\
    high c = Some hi /\ In hi (map mid ws) /\
    (forall p, In p (map mid ws) -> nlt hi p = false) /\
    low c = Some lo /\ In lo (map mid ws) /\
    (forall p, In p (map mid ws) -> nlt p lo = false) /\
    volume c = round6 (fold_left nadd (map size ws) (of_int 0)).
Proof.
  intros Ho Hin Hne Hle.
  exact (@window_candle num N L w pre s ins qb tb Ho Hin Hne Hle).
Qed.

(** The scenario of one window: quotes of mid-prices 100, 105, 95 and
    102, then the quote that meets the boundary. *)
Example one_window_candle :
  candles (run 0 (one_window ++ [(FetchQuote (flat_quote 101 1), interval)])) =
  [ {| timestamp := 0; open := Some 100; high := Some 105; low := Some 95;
       close := Some 102; volume := 10 |} ].
Proof. vm_compute. reflexivity. Qed.

(** The window after it starts with the quote that met the boundary. *)
Example second_window_candle :
  candles (run 0 (one_window ++
                  [ (FetchQuote (flat_quote 101 1), interval);
                    (FetchQuote (flat_quote 99 1), interval + 10);
                    (FetchQuote (flat_quote 103 1), 2 * interval) ])) =
  [ {| timestamp := 0; open := Some 100; high := Some 105; low := Some 95;
       close := Some 102; volume := 10 |};
    {| timestamp := interval; open := Some 101; high := Some 101;
       low := Some 99; close := Some 99; volume := 2 |} ].
Proof. vm_compute. reflexivity. Qed.

Lemma C1_window_candle_witness :
  let ws := [] ++ quotes_of one_window in
  let mid := fun q : Quote Z =>
               ndiv (nadd (bid_price q) (ask_price q)) (of_int 2) in
  let size := fun q : Quote Z =>
                ndiv (nadd (bid_size q) (ask_size q)) (of_int 2) in
  let r := update (FetchQuote (flat_quote 101 1)) interval
             (run_from (start_collection 0 init) one_window) in
  exists c qf ql hi lo,
    hd_error ws = Some qf /\ hd_error (rev ws) = Some ql /\
    fst r = true /\
    candles (snd r) = candles (start_collection 0 init) ++ [c] /\
    timestamp c = 0 /\
    open c = Some (mid qf) /\
    close c = Some (mid ql) /\
    high c = Some hi /\ In hi (map mid ws) /\
    (forall p, In p (map mid ws) -> nlt hi p = false) /\
    low c = Some lo /\ In lo (map mid ws) /\
    (forall p, In p (map mid ws) -> nlt p lo = false) /\
    volume c = round6 (fold_left nadd (map size ws) (of_int 0)).
Proof.
  apply (@C1_window_candle Z Z_PyNum Z_PyNumLaws 0 []
           (start_collection 0 init) one_window (flat_quote 101 1) interval).
  - apply opens_start.
  - unfold one_window, interval. repeat constructor; cbn; lia.
  - discriminate.
  - unfold interval. lia.
Defined.

(** C3.  A quote that arrives at or after the boundary while the
    accumulator holds no price restarts the window and appends nothing;
    and in every run each candle of the history is the candle of a
    window that received at least one quote, the windows sharing out the
    quotes of the run in order. *)
Theorem C3_no_empty_candle {num : Type} {N : PyNum num} (L : PyNumLaws N) :
  (forall (s : LiveDataCollector num) (q : Quote num) (now w : Z)
          (cur : CurrentCandle num),
      candle_start s = Some w ->
      current_candle s = Some cur ->
      cur_open cur = None ->
      interval <= now - w ->
      fst (update (FetchQuote q) now s) = false /\
      candle_start (snd (update (FetchQuote q) now s)) = Some now /\
      candles (snd (update (FetchQuote q) now s)) = candles s) /\
  (forall (t0 : Z) (ins : list (Fetch num * Z)),
      candles (run t0 ins) =
        map (fun d => candle_of (fst d) (snd d)) (done (log_of t0 ins)) /\
      Forall (fun d => snd d <> []) (done (log_of t0 ins)) /\
      concat (map snd (done (log_of t0 ins))) ++ win (log_of t0 ins) =
        quotes_of ins).
Proof.
  split.
  - intros s q now w cur Hw Hc Ho Hle.
    rewrite update_boundary_empty with (w:=w) (cur:=cur) by assumption.
    repeat split.
  - intros t0 ins. destruct (tracks_run t0 ins) as (_ & _ & Hd).
    destruct (log_fold_facts ins {| done := []; win_start := t0; win := [] |})
      as [H1 H2]; [constructor|].
    repeat split; assumption.
Qed.

Lemma C3_no_empty_candle_witness :
  (fst (update (FetchQuote (flat_quote 100 1)) interval
          (start_collection 0 init)) = false /\
   candle_start (snd (update (FetchQuote (flat_quote 100 1)) interval
                        (start_collection 0 init))) = Some interval /\
   candles (snd (update (FetchQuote (flat_quote 100 1)) interval
                   (start_collection 0 init))) = []) /\
  (candles (run 0 one_window) =
     map (fun d => candle_of (fst d) (snd d)) (done (log_of 0 one_window)) /\
   Forall (fun d => snd d <> []) (done (log_of 0 one_window)) /\
   concat (map snd (done (log_of 0 one_window))) ++ win (log_of 0 one_window) =
     quotes_of one_window).
Proof.
  destruct (C3_no_empty_candle Z_PyNumLaws) as [A B]. split.
  - apply (A (start_collection 0 init) (flat_quote 100 1) interval 0
             {| cur_open := None; cur_high := None; cur_low := None;
                cur_close := None; cur_volume := 0 |});
      (reflexivity || (unfold interval; lia)).
  - apply (B 0 one_window).
Defined.

(** C4.  A call to [update] whose fetch yields no quote, or raises,
    returns [False] (no candle) and leaves the collector as it was. *)
Theorem C4_unavailable_unchanged {num : Type} {N : PyNum num}
  (s : LiveDataCollector num) (now : Z) :
  update FetchNone now s = (false, s) /\
  update FetchRaises now s = (false, s).
Proof. split; reflexivity. Qed.

(** C8.  A call to [update] appends to the history the candle of the
    window it closes and nothing else: the length grows by one when a
    quote arrives at or after the boundary while the accumulator holds
    a price, and stays the same otherwise; the call reports a candle
    only then; and the one accumulator of the collector stays in
    place. *)
Theorem C8_history_growth {num : Type} {N : PyNum num}
  (f : Fetch num) (now : Z) (s : LiveDataCollector num) :
  candles (snd (update f now s)) = candles s ++ closed_by f now s /\
  length (candles (snd (update f now s))) =
    (length (candles s) + (if completes f now s then 1 else 0))%nat /\
  (fst (update f now s) = true -> completes f now s = true) /\
  (current_candle s <> None ->
   current_candle (snd (update f now s)) <> None).
Proof.
  repeat split.
  - apply update_candles.
  - rewrite update_candles, length_app, closed_by_length. reflexivity.
  - apply update_result.
  - apply update_keeps_current.
Qed.

(** C9.  In every run the history is in strictly increasing order of
    window start; every call to [update] only appends to it, and what it
    appends carries the start of the window that was open; and
    [start_collection] leaves it as it is. *)
Theorem C9_append_only_chronological {num : Type} {N : PyNum num}
  (t0 : Z) (ins : list (Fetch num * Z)) :
  StronglySorted Z.lt (map timestamp (candles (run t0 ins))) /\
  (forall (s : LiveDataCollector num) (f : Fetch num) (now : Z),
      exists ext,
        candles (snd (update f now s)) = candles s ++ ext /\
        forall c, In c ext -> candle_start s = Some (timestamp c)) /\
  (forall (s : LiveDataCollector num) (now : Z),
      candles (start_collection now s) = candles s).
Proof.
  repeat split.
  - destruct (run_chronological t0 ins) as (w & cur & _ & _ & _ & Hs & _).
    exact Hs.
  - intros s f now. exists (closed_by f now s). split.
    + apply update_candles.
    + intros c. apply closed_by_timestamp.
Qed.

End CollectorClaims.

(** ** The trading loop *)

Module TraderFacts.
Import Collector Trader.

Ltac run_trader :=
  unfold print_status_line, print_signal_report, getb, modb, call, bind, gets, modify, ret, raise,
    try_except, not_none; cbn -[Nat.ltb update on_new_candle send_status_update].

Section WithNum.
Context {num : Type} {N : PyNum num}.
Local Abbreviation Candle := (Collector.Candle num).
Local Abbreviation LiveDataCollector := (Collector.LiveDataCollector num).
Local Abbreviation Config := (Trader.Config num).
Local Abbreviation Answers := (Trader.Answers num).
Local Abbreviation Event := (Trader.Event num).
Local Abbreviation IntegratedLiveTrader := (Trader.IntegratedLiveTrader num).

Lemma get_dataframe_rows (c : LiveDataCollector) (rows : list Candle) :
  get_dataframe c = Some rows -> rows = candles c.
Proof.
  unfold get_dataframe. destruct (candles c); [discriminate|]. congruence.
Qed.

Lemma on_new_candle_skips (cfg : Config) (a : Answers)
  (b : IntegratedLiveTrader) (l : list Event) :
  (length (candles (data_collector b)) < 100)%nat ->
  on_new_candle cfg a (b, l) = (Some tt, (b, l)).
Proof.
  intros Hlen. unfold on_new_candle. run_trader.
  destruct (get_dataframe (data_collector b)) as [rows|] eqn:E; [|reflexivity].
  apply get_dataframe_rows in E. subst rows.
  apply Nat.ltb_lt in Hlen. rewrite Hlen. reflexivity.
Qed.

Lemma on_new_candle_run (cfg : Config) (a : Answers)
  (b : IntegratedLiveTrader) (l : list Event) :
  exists res evs,
    on_new_candle cfg a (b, l) = (res, (b, l ++ evs)) /\
    Forall (fun e => is_send_trading_enabled e = false) evs /\
    (signal_equity a = None -> Forall (fun e => is_send_signal e = false) evs).
Proof.
  unfold on_new_candle, calculate_indicators, detect_signal,
    get_account_equity.
  run_trader.
  destruct (get_dataframe (data_collector b)) as [rows|];
    [|exists (Some tt), []; rewrite app_nil_r; auto].
  destruct (length rows <? 100)%nat;
    [exists (Some tt), []; rewrite app_nil_r; auto|].
  destruct (indicators_ok a) as [|[|[|[|[|n]]]]]; cbn;
    rewrite <- ?app_assoc; cbn;
    try (do 2 eexists; split; [reflexivity|split; [|intros _];
                                           repeat constructor]).
  destruct (status_line_ok a); cbn;
    [|do 2 eexists; split; [reflexivity|split; [|intros _];
                                         repeat constructor]].
  destruct (signal_detector b); cbn;
    [|do 2 eexists; split; [reflexivity|split; [|intros _];
                                         repeat constructor]].
  destruct (detect a) as [| |sg]; cbn; rewrite <- ?app_assoc; cbn;
    try (do 2 eexists; split; [reflexivity|split; [|intros _];
                                           repeat constructor]).
  destruct (signal_report_ok a); cbn;
    [|do 2 eexists; split; [reflexivity|split; [|intros _];
                                         repeat constructor]].
  destruct (discord b); cbn; rewrite <- ?app_assoc; cbn;
    [|do 2 eexists; split; [reflexivity|split; [|intros _];
                                         repeat constructor]].
  destruct (signal_equity a) as [e|]; cbn; rewrite <- ?app_assoc; cbn;
    [|do 2 eexists; split; [reflexivity|split; [|intros _];
                                         repeat constructor]].
  destruct (send_signal_ok a); cbn; rewrite <- ?app_assoc; cbn;
    (do 2 eexists; split; [reflexivity|split; [|discriminate];
                                       repeat constructor]).
Qed.

(** The calls of [on_new_candle] when the status line is printed, a
    signal is produced and a notifier is set. *)
Lemma on_new_candle_signal (cfg : Config) (a : Answers)
  (b : IntegratedLiveTrader) (l : list Event) (sg : Signal num) :
  (100 <= length (candles (data_collector b)))%nat ->
  (5 <= indicators_ok a)%nat ->
  status_line_ok a = true ->
  signal_detector b = true ->
  discord b = true ->
  detect a = DetectSome sg ->
  signal_report_ok a = true ->
  on_new_candle cfg a (b, l) =
    (Some tt,
     (b, l ++ [CalculateRsi; CalculateAtr; CalculateEma EMA_FAST;
               CalculateEma EMA_MID; CalculateEma EMA_SLOW;
               DetectSignal; GetAccount] ++
              match signal_equity a with
              | Some e => [SendSignal sg e]
              | None => []
              end)).
Proof.
  intros Hlen Hind Hline Hdet Hdis Hsig Hrep.
  unfold on_new_candle, calculate_indicators, detect_signal,
    get_account_equity.
  run_trader.
  destruct (get_dataframe (data_collector b)) as [rows|] eqn:E.
  2:{ unfold get_dataframe in E.
      destruct (candles (data_collector b)); [cbn in Hlen; lia|discriminate]. }
  apply get_dataframe_rows in E. subst rows.
  apply Nat.ltb_ge in Hlen. rewrite Hlen.
  destruct (indicators_ok a) as [|[|[|[|[|n]]]]]; try lia. cbn.
  rewrite Hline; cbn. rewrite Hdet; cbn. rewrite Hsig; cbn.
  rewrite Hrep; cbn. rewrite Hdis; cbn.
  destruct (signal_equity a) as [e|]; cbn.
  - destruct (send_signal_ok a); cbn; now rewrite <- !app_assoc.
  - now rewrite <- !app_assoc.
Qed.

Lemma send_status_update_run (a : Answers) (b : IntegratedLiveTrader)
  (l : list Event) :
  exists evs,
    send_status_update a (b, l) = (Some tt, (b, l ++ evs)) /\
    Forall (fun e => is_send_trading_enabled e = false /\
                     evaluates e = false /\ is_send_signal e = false) evs.
Proof.
  unfold send_status_update. run_trader.
  destruct (discord b); cbn; [|exists []; rewrite app_nil_r; auto].
  destruct (status_account_ok a); cbn; rewrite <- ?app_assoc; cbn;
    [|eexists; split; [reflexivity|repeat constructor]].
  destruct (status_positions_ok a); cbn; rewrite <- ?app_assoc; cbn;
    [|eexists; split; [reflexivity|repeat constructor]].
  destruct (status_send_ok a); cbn; rewrite <- ?app_assoc; cbn;
    (eexists; split; [reflexivity|repeat constructor]).
Qed.

Lemma enable_trading_run (cfg : Config) (a : Answers)
  (b : IntegratedLiveTrader) (l : list Event) :
  enable_trading cfg a (b, l) =
    if trading_enabled b then (Some tt, (b, l))
    else if reached cfg b then
      if discord b then
        (if send_trading_enabled_ok a then Some tt else None,
         (enabled_of b,
          l ++ [SendTradingEnabled (length (candles (data_collector b)))]))
      else (Some tt, (enabled_of b, l))
    else (Some tt, (b, l)).
Proof.
  unfold enable_trading, reached. run_trader.
  destruct (trading_enabled b); cbn; [reflexivity|].
  destruct (has_minimum_candles _ _); cbn; [|reflexivity].
  destruct (discord b); cbn; [|reflexivity].
  destruct (send_trading_enabled_ok a); reflexivity.
Qed.

Lemma dispatch_candle_run (cfg : Config) (a : Answers) (r : bool)
  (b : IntegratedLiveTrader) (l : list Event) :
  exists res evs,
    dispatch_candle cfg a r (b, l) = (res, (b, l ++ evs)) /\
    (trading_enabled b = false -> evs = [] /\ res = Some tt) /\
    ((length (candles (data_collector b)) < 100)%nat ->
     evs = [] /\ res = Some tt) /\
    Forall (fun e => is_send_trading_enabled e = false) evs /\
    (signal_equity a = None -> Forall (fun e => is_send_signal e = false) evs).
Proof.
  unfold dispatch_candle. run_trader.
  destruct (trading_enabled b && r) eqn:E; cbn -[on_new_candle Nat.ltb].
  - apply andb_true_iff in E. destruct E as [Ht _].
    destruct (Nat.ltb_spec (length (candles (data_collector b))) 100)
      as [Hlt|Hge].
    + exists (Some tt), []. rewrite on_new_candle_skips by assumption.
      rewrite app_nil_r. repeat split; auto.
    + destruct (on_new_candle_run cfg a b l) as (res & evs & E & H1 & H2).
      exists res, evs. repeat split; auto; intros; try congruence; lia.
  - exists (Some tt), []. rewrite app_nil_r. repeat split; auto.
Qed.

Lemma status_broadcast_run (cfg : Config) (a : Answers)
  (b : IntegratedLiveTrader) (l : list Event) :
  exists t evs,
    status_broadcast cfg a (b, l) =
      (Some tt, (set_last_discord_update t b, l ++ evs)) /\
    (trading_enabled b = false -> evs = []) /\
    Forall (fun e => is_send_trading_enabled e = false /\
                     evaluates e = false /\ is_send_signal e = false) evs.
Proof.
  unfold status_broadcast. run_trader.
  destruct b as [dc d te rn last sd]; cbn -[send_status_update].
  destruct (d && te) eqn:E; cbn -[send_status_update].
  - apply andb_true_iff in E. destruct E as [-> ->].
    destruct (nlt _ _); cbn -[send_status_update].
    + destruct (send_status_update_run a (mkTrader dc true true rn last sd) l)
        as (evs & E & H1).
      rewrite E. cbn. exists (time2 a), evs. repeat split; auto.
      discriminate.
    + exists last, []. rewrite app_nil_r. repeat split; auto.
  - exists last, []. rewrite app_nil_r. repeat split; auto.
Qed.

Lemma notifications_app (xs ys : list Event) :
  notifications (xs ++ ys) = (notifications xs + notifications ys)%nat.
Proof. unfold notifications. now rewrite filter_app, length_app. Qed.

Lemma notifications_none (xs : list Event) :
  Forall (fun e => is_send_trading_enabled e = false) xs ->
  notifications xs = 0%nat.
Proof.
  unfold notifications. induction 1 as [|e xs He _ IH]; cbn; [reflexivity|].
  now rewrite He.
Qed.

(** The three blocks of an iteration, after the update. *)
Lemma iteration_blocks (cfg : Config) (a : Answers)
  (b : IntegratedLiveTrader) (l : list Event) :
  iteration cfg a (b, l) =
    match enable_trading cfg a
            (set_data_collector
               (snd (update (fetch a) (now a) (data_collector b))) b, l) with
    | (Some _, w1) =>
        match dispatch_candle cfg a
                (fst (update (fetch a) (now a) (data_collector b))) w1 with
        | (Some _, w2) => status_broadcast cfg a w2
        | (None, w2) => (None, w2)
        end
    | (None, w1) => (None, w1)
    end.
Proof.
  unfold iteration, collector_update. unfold bind at 1 2 3. cbn [fst snd].
  destruct (update (fetch a) (now a) (data_collector b)) as [r c].
  reflexivity.
Qed.

(** The blocks after the gate: the candle, then the status. *)
Lemma after_gate_run (cfg : Config) (a : Answers) (r : bool)
  (b : IntegratedLiveTrader) (l : list Event) :
  exists res b' evs,
    match dispatch_candle cfg a r (b, l) with
    | (Some _, w2) => status_broadcast cfg a w2
    | (None, w2) => (None, w2)
    end = (res, (b', l ++ evs)) /\
    data_collector b' = data_collector b /\
    discord b' = discord b /\
    trading_enabled b' = trading_enabled b /\
    (trading_enabled b = false -> evs = [] /\ res = Some tt) /\
    notifications evs = 0%nat /\
    ((length (candles (data_collector b)) < 100)%nat ->
     Forall (fun e => evaluates e = false) evs) /\
    (signal_equity a = None ->
     Forall (fun e => is_send_signal e = false) evs).
Proof.
  destruct (dispatch_candle_run cfg a r b l)
    as (res & e2 & E2 & H1 & H2 & H3 & H4).
  rewrite E2. destruct res as [[]|].
  - destruct (status_broadcast_run cfg a b (l ++ e2))
      as (t & e3 & E3 & H5 & H6).
    rewrite E3. exists (Some tt), (set_last_discord_update t b), (e2 ++ e3).
    rewrite app_assoc. split; [reflexivity|].
    split; [reflexivity|]. split; [reflexivity|]. split; [reflexivity|].
    split; [|split; [|split]].
    + intros Ht. destruct (H1 Ht) as [-> _]. rewrite (H5 Ht). now split.
    + rewrite notifications_app, (notifications_none H3).
      apply notifications_none. eapply Forall_impl; [|exact H6].
      cbn; tauto.
    + intros Hlen. destruct (H2 Hlen) as [-> _]. cbn.
      eapply Forall_impl; [|exact H6]. cbn; tauto.
    + intros He. apply Forall_app. split; [auto|].
      eapply Forall_impl; [|exact H6]. cbn; tauto.
  - exists None, b, e2. split; [reflexivity|].
    split; [reflexivity|]. split; [reflexivity|]. split; [reflexivity|].
    split; [|split; [|split]].
    + intros Ht. destruct (H1 Ht) as [_ Hf]. discriminate.
    + apply notifications_none, H3.
    + intros Hlen. destruct (H2 Hlen) as [_ Hf]. discriminate.
    + exact H4.
Qed.

(** What one iteration does to the gate, and which calls it makes. *)
Lemma iteration_run (cfg : Config) (a : Answers) (b : IntegratedLiveTrader) :
  let c := snd (update (fetch a) (now a) (data_collector b)) in
  let b1 := set_data_collector c b in
  exists res b' evs,
    iteration cfg a (b, []) = (res, (b', evs)) /\
    data_collector b' = c /\
    discord b' = discord b /\
    trading_enabled b' = trading_enabled b || reached cfg b1 /\
    (trading_enabled b' = false -> evs = [] /\ res = Some tt) /\
    notifications evs =
      (if negb (trading_enabled b) && reached cfg b1 && discord b
       then 1 else 0)%nat /\
    (negb (trading_enabled b) && reached cfg b1 && discord b = true ->
     hd_error evs = Some (SendTradingEnabled (length (candles c)))) /\
    ((length (candles c) < 100)%nat ->
     Forall (fun e => evaluates e = false) evs) /\
    (signal_equity a = None ->
     Forall (fun e => is_send_signal e = false) evs).
Proof.
  intros c b1. rewrite iteration_blocks. fold c. fold b1.
  rewrite enable_trading_run.
  assert (Hte : trading_enabled b1 = trading_enabled b) by reflexivity.
  assert (Hd : discord b1 = discord b) by reflexivity.
  assert (Hc : data_collector b1 = c) by reflexivity.
  assert (Hc2 : data_collector (enabled_of b1) = c) by reflexivity.
  assert (Hd2 : discord (enabled_of b1) = discord b) by reflexivity.
  assert (Ht2 : trading_enabled (enabled_of b1) = true) by reflexivity.
  rewrite Hte, Hd, Hc.
  destruct (trading_enabled b) eqn:Ht; cbn [negb andb orb].
  - (* trading already enabled *)
    destruct (after_gate_run cfg a
                (fst (update (fetch a) (now a) (data_collector b))) b1 [])
      as (res & b' & evs & E & H1 & H2 & H3 & H4 & H5 & H6 & H7).
    rewrite E. exists res, b', evs. cbn [app].
    rewrite H1, H2, H3, Hc, Hd, Hte. rewrite Hc in H6.
    repeat split; auto; discriminate.
  - destruct (reached cfg b1) eqn:Hr; cbn [negb andb orb].
    + (* trading becomes enabled *)
      destruct (discord b) eqn:Hdis.
      * destruct (send_trading_enabled_ok a).
        -- destruct (after_gate_run cfg a
                       (fst (update (fetch a) (now a) (data_collector b)))
                       (enabled_of b1)
                       ([] ++ [SendTradingEnabled (length (candles c))]))
             as (res & b' & evs & E & H1 & H2 & H3 & H4 & H5 & H6 & H7).
           rewrite E.
           exists res, b', (SendTradingEnabled (length (candles c)) :: evs).
           rewrite H1, H2, H3, Hc2, Hd2, Ht2. rewrite Hc2 in H6.
           split; [reflexivity|]. repeat split; auto; try discriminate.
           ++ change (SendTradingEnabled (length (candles c)) :: evs)
                with ([SendTradingEnabled (length (candles c))] ++ evs).
              rewrite notifications_app, H5. reflexivity.
        -- exists None, (enabled_of b1),
             [SendTradingEnabled (length (candles c))].
           repeat split; auto; try discriminate; repeat constructor.
      * destruct (after_gate_run cfg a
                    (fst (update (fetch a) (now a) (data_collector b)))
                    (enabled_of b1) [])
          as (res & b' & evs & E & H1 & H2 & H3 & H4 & H5 & H6 & H7).
        rewrite E. exists res, b', evs. cbn [app].
        rewrite H1, H2, H3, Hc2, Hd2, Ht2. rewrite Hc2 in H6.
        repeat split; auto; discriminate.
    + (* still collecting *)
      destruct (after_gate_run cfg a
                  (fst (update (fetch a) (now a) (data_collector b))) b1 [])
        as (res & b' & evs & E & H1 & H2 & H3 & H4 & H5 & H6 & H7).
      rewrite E. exists res, b', evs. cbn [app].
      rewrite H1, H2, H3, Hc, Hd, Hte. rewrite Hc in H6. rewrite Hte in H4.
      repeat split; auto; try discriminate; apply (H4 eq_refl).
Qed.

Lemma reached_step (cfg : Config) (f : Collector.Fetch num) (t : Z)
  (b : IntegratedLiveTrader) :
  reached cfg b = true ->
  reached cfg (set_data_collector (snd (update f t (data_collector b))) b)
    = true.
Proof.
  unfold reached, has_minimum_candles; cbn [data_collector set_data_collector].
  rewrite CollectorFacts.update_candles, length_app.
  intros Hr. apply Z.leb_le in Hr. apply Z.leb_le. lia.
Qed.

Lemma reached_same_collector (cfg : Config) (b b' : IntegratedLiveTrader) :
  data_collector b' = data_collector b -> reached cfg b' = reached cfg b.
Proof. unfold reached. now intros ->. Qed.

(** Once trading is enabled it stays enabled, and the notification is
    not sent again. *)
Lemma loop_trading (cfg : Config) (answers : list Answers)
  (b : IntegratedLiveTrader) :
  reached cfg b = true -> trading_enabled b = true ->
  Forall (trading cfg) (loop cfg answers b).
Proof.
  revert b. induction answers as [|a rest IH]; intros b Hr Ht; cbn [loop].
  - constructor.
  - destruct (iteration_run cfg a b)
      as (res & b' & evs & E & Hc & _ & Hte & _ & Hn & _).
    rewrite E. rewrite Ht in Hte, Hn. cbn in Hte, Hn.
    assert (Hr' : reached cfg b' = true).
    { rewrite <- (reached_step cfg (fetch a) (now a) b Hr).
      apply reached_same_collector. exact Hc. }
    assert (Hb' : trading cfg (b', evs)) by (repeat split; assumption).
    destruct res as [[]|].
    + constructor; [assumption|]. apply IH; assumption.
    + constructor; [assumption|constructor].
Qed.

(** A run is a collecting phase, then possibly the iteration that
    enables trading and a trading phase. *)
Lemma loop_gate (cfg : Config) (answers : list Answers)
  (b : IntegratedLiveTrader) :
  trading_enabled b = false ->
  Forall (collecting cfg) (loop cfg answers b) \/
  exists pre e post,
    loop cfg answers b = pre ++ e :: post /\
    Forall (collecting cfg) pre /\
    enabling cfg (discord b) e /\
    Forall (trading cfg) post.
Proof.
  revert b. induction answers as [|a rest IH]; intros b Ht; cbn [loop].
  - left. constructor.
  - destruct (iteration_run cfg a b)
      as (res & b' & evs & E & Hc & Hd & Hte & Hcol & Hn & Hhd & _).
    rewrite E. rewrite Ht in Hte, Hn, Hhd. cbn [negb andb orb] in Hte, Hn, Hhd.
    assert (Hr : reached cfg b' =
                 reached cfg (set_data_collector
                   (snd (update (fetch a) (now a) (data_collector b))) b))
      by (apply reached_same_collector; exact Hc).
    rewrite <- Hr in Hte, Hn, Hhd.
    destruct (reached cfg b') eqn:Hreach.
    + (* this iteration enables trading *)
      right. exists [], (b', evs). cbn [andb] in Hn, Hhd.
      assert (He : enabling cfg (discord b) (b', evs)).
      { unfold enabling; cbn [fst snd]. rewrite Hc. auto. }
      destruct res as [[]|].
      * exists (loop cfg rest b').
        split; [reflexivity|]. split; [constructor|]. split; [exact He|].
        apply loop_trading; assumption.
      * exists [].
        split; [reflexivity|]. split; [constructor|]. split; [exact He|].
        constructor.
    + (* still collecting *)
      destruct (Hcol Hte) as [-> ->].
      assert (Hb' : collecting cfg (b', [])) by (repeat split; assumption).
      destruct (IH b' Hte) as [Hall|(pre & e & post & El & Hpre & He & Hpost)].
      * left. constructor; assumption.
      * right. exists ((b', []) :: pre), e, post. cbn [fst]. rewrite El.
        split; [reflexivity|]. split; [constructor; assumption|].
        split; [|assumption]. rewrite <- Hd. exact He.
Qed.

End WithNum.
End TraderFacts.

Module TraderClaims.
Import Collector Trader TraderFacts Demo.

Example history_length : length (candles (history 100)) = 100%nat.
Proof. vm_compute. reflexivity. Qed.

(** C2.  A run from the entry of the loop is a collecting phase, in
    which the history is shorter than required and trading is not
    enabled, then, if the required length is reached, the one iteration
    that enables trading, then a trading phase in which trading stays
    enabled.  The notification is sent once, by the enabling iteration,
    when a notifier is set, and not at all otherwise.  [stop] leaves
    trading enabled as well. *)
Theorem C2_enabled_once {num : Type} {N : PyNum num}
  (cfg : Config num) (d : bool) (t : num) (t0 : Z)
  (answers : list (Answers num)) :
  (Forall (collecting cfg) (loop cfg answers (entered d t t0)) \/
   exists pre e post,
     loop cfg answers (entered d t t0) = pre ++ e :: post /\
     Forall (collecting cfg) pre /\
     enabling cfg d e /\
     Forall (trading cfg) post) /\
  (forall (b : IntegratedLiveTrader num) (l : list (Event num)) (ok : bool),
     trading_enabled (fst (snd (stop ok (b, l)))) = trading_enabled b).
Proof.
  split.
  - apply (loop_gate cfg answers (entered d t t0)). reflexivity.
  - intros b l ok. unfold stop. run_trader.
    destruct (discord b); cbn; [destruct ok|]; reflexivity.
Qed.

(** The claim fails when no notifier is set: trading is enabled by the
    second iteration and no notification is sent. *)
Lemma C2_counterexample :
  map (fun e => trading_enabled (fst e))
      (loop (config 1) (polls 2) (entered false 0 0)) = [false; true] /\
  total_notifications (loop (config 1) (polls 2) (entered false 0 0)) = 0%nat.
Proof. vm_compute. split; reflexivity. Qed.

(** C5.  When a signal is produced (the history holds the lookback, the
    indicators are computed, the status line is printed, the detector
    returns a signal and its report is printed) and a notifier is set, [on_new_candle] asks the
    broker for the equity right after the detector.  When the fetch
    succeeds the signal notification is the next and last call, made
    with that equity; when it fails the broker call is the last call
    and no signal notification is sent.  In both cases [on_new_candle]
    returns normally and leaves the object as it is. *)
Theorem C5_signal_notification {num : Type} {N : PyNum num}
  (cfg : Config num) (a : Answers num) (b : IntegratedLiveTrader num)
  (l : list (Event num)) (sg : Signal num) :
  (100 <= length (candles (data_collector b)))%nat ->
  (5 <= indicators_ok a)%nat ->
  status_line_ok a = true ->
  signal_detector b = true ->
  discord b = true ->
  detect a = DetectSome sg ->
  signal_report_ok a = true ->
  on_new_candle cfg a (b, l) =
    (Some tt,
     (b, l ++ [CalculateRsi; CalculateAtr; CalculateEma EMA_FAST;
               CalculateEma EMA_MID; CalculateEma EMA_SLOW;
               DetectSignal; GetAccount] ++
              match signal_equity a with
              | Some e => [SendSignal sg e]
              | None => []
              end)).
Proof. apply on_new_candle_signal. Qed.

Lemma C5_signal_notification_witness :
  on_new_candle (config 1) (signal_answers None) (trader_with 100, []) =
    (Some tt,
     (trader_with 100,
      [CalculateRsi; CalculateAtr; CalculateEma EMA_FAST;
       CalculateEma EMA_MID; CalculateEma EMA_SLOW;
       DetectSignal; GetAccount])).
Proof.
  apply (@C5_signal_notification Z Z_PyNum (config 1) (signal_answers None)
           (trader_with 100) [] sample_signal).
  - apply Nat.leb_le. vm_compute. reflexivity.
  - apply Nat.leb_le. vm_compute. reflexivity.
  - reflexivity.
  - reflexivity.
  - reflexivity.
  - reflexivity.
  - reflexivity.
Defined.

(** With a broker that answers the notification is sent. *)
Example signal_sent_with_equity :
  snd (snd (on_new_candle (config 1) (signal_answers (Some 5000))
              (trader_with 100, []))) =
  [CalculateRsi; CalculateAtr; CalculateEma EMA_FAST; CalculateEma EMA_MID;
   CalculateEma EMA_SLOW; DetectSignal; GetAccount;
   SendSignal sample_signal 5000].
Proof. vm_compute. reflexivity. Qed.

(** The claim fails: a signal is found, the fetch of the equity raises,
    and no signal notification is sent. *)
Lemma C5_counterexample :
  snd (snd (on_new_candle (config 1) (signal_answers None)
              (trader_with 100, []))) =
  [CalculateRsi; CalculateAtr; CalculateEma EMA_FAST; CalculateEma EMA_MID;
   CalculateEma EMA_SLOW; DetectSignal; GetAccount].
Proof. vm_compute. reflexivity. Qed.

Lemma app_cons_cases {A : Type} (pre pre0 post post0 : list A) (e e0 : A) :
  pre ++ e :: post = pre0 ++ e0 :: post0 ->
  (pre = pre0 /\ e = e0) \/ In e pre0 \/ In e post0.
Proof.
  revert pre0. induction pre as [|x pre IH]; intros [|y pre0]; cbn; intros E.
  - injection E as -> _. now left.
  - injection E as -> _. right. left. now left.
  - injection E as -> E. right. right. rewrite <- E.
    apply in_or_app. right. now left.
  - injection E as -> E. destruct (IH pre0 E) as [[-> ->]|[H|H]]; auto.
Qed.

Lemma total_notifications_app {num : Type}
  (xs ys : list (IntegratedLiveTrader num * list (Event num))) :
  total_notifications (xs ++ ys) =
    (total_notifications xs + total_notifications ys)%nat.
Proof. unfold total_notifications. now rewrite map_app, list_sum_app. Qed.

Lemma total_notifications_cons {num : Type}
  (e : IntegratedLiveTrader num * list (Event num))
  (tr : list (IntegratedLiveTrader num * list (Event num))) :
  total_notifications (e :: tr) =
    (notifications (snd e) + total_notifications tr)%nat.
Proof. reflexivity. Qed.

Lemma collecting_phase {num : Type} {N : PyNum num} (cfg : Config num)
  (tr : list (IntegratedLiveTrader num * list (Event num))) :
  Forall (collecting cfg) tr ->
  total_notifications tr = 0%nat /\
  existsb (fun e => reached cfg (fst e)) tr = false.
Proof.
  induction 1 as [|e tr (Hr & _ & He) _ [IH1 IH2]]; [now split|].
  rewrite total_notifications_cons, IH1, He. cbn [existsb].
  rewrite Hr, IH2. now split.
Qed.

Lemma trading_phase {num : Type} {N : PyNum num} (cfg : Config num)
  (tr : list (IntegratedLiveTrader num * list (Event num))) :
  Forall (trading cfg) tr -> total_notifications tr = 0%nat.
Proof.
  induction 1 as [|e tr (_ & _ & He) _ IH]; [reflexivity|].
  now rewrite total_notifications_cons, IH, He.
Qed.

(** C6.  In a run from the entry of the loop, an iteration after which
    the history is shorter than required makes no call to the
    indicators or to the detector (nor to the broker or the notifier);
    over the
    whole run the notification is sent once if the required length is
    reached and a notifier is set, and never otherwise; and the
    iteration that sends it is the first one after which the history has
    the required length. *)
Theorem C6_gate_on_history {num : Type} {N : PyNum num}
  (cfg : Config num) (d : bool) (t : num) (t0 : Z)
  (answers : list (Answers num)) :
  (forall e, In e (loop cfg answers (entered d t t0)) ->
     reached cfg (fst e) = false -> snd e = []) /\
  total_notifications (loop cfg answers (entered d t t0)) =
    (if d && existsb (fun e => reached cfg (fst e))
                (loop cfg answers (entered d t t0))
     then 1 else 0)%nat /\
  (forall pre e post,
     loop cfg answers (entered d t t0) = pre ++ e :: post ->
     notifications (snd e) <> 0%nat ->
     reached cfg (fst e) = true /\
     Forall (fun x => reached cfg (fst x) = false) pre).
Proof.
  destruct (loop_gate cfg answers (entered d t t0) eq_refl)
    as [Hall|(pre0 & e0 & post0 & -> & Hpre & He & Hpost)].
  - destruct (collecting_phase Hall) as [Ht Hex]. rewrite Ht, Hex.
    rewrite Forall_forall in Hall. split; [|split].
    + intros e Hin _. apply (Hall e Hin).
    + now rewrite andb_false_r.
    + intros pre e post E Hne. exfalso.
      assert (Hin : In e (pre ++ e :: post))
        by (apply in_or_app; right; now left).
      rewrite <- E in Hin. destruct (Hall e Hin) as (_ & _ & Hnil).
      rewrite Hnil in Hne. now apply Hne.
  - cbn [entered discord] in He. destruct He as (Hr0 & _ & Hn0 & _).
    destruct (collecting_phase Hpre) as [Ht Hex].
    pose proof (trading_phase Hpost) as Ht'.
    pose proof Hpre as Hpre'. pose proof Hpost as Hpost'.
    rewrite Forall_forall in Hpre', Hpost'.
    split; [|split].
    + intros e Hin Hr. apply in_app_or in Hin. destruct Hin as [Hin|[<-|Hin]].
      * apply (Hpre' e Hin).
      * congruence.
      * destruct (Hpost' e Hin) as (Hr' & _). congruence.
    + change (e0 :: post0) with ([e0] ++ post0).
      rewrite !total_notifications_app, Ht, Ht'.
      rewrite existsb_app, Hex. cbn. rewrite Hr0, Hn0. cbn.
      rewrite andb_true_r. destruct d; reflexivity.
    + intros pre e post E Hne.
      symmetry in E.
      destruct (app_cons_cases _ _ _ _ _ _ E) as [[-> ->]|[Hin|Hin]].
      * split; [assumption|]. eapply Forall_impl; [|exact Hpre].
        intros x Hx. apply Hx.
      * destruct (Hpre' e Hin) as (_ & _ & Hnil). rewrite Hnil in Hne.
        now contradiction Hne.
      * destruct (Hpost' e Hin) as (_ & _ & Hz). contradiction.
Qed.

(** The claim fails when no notifier is set: the tenth candle is
    completed by the eleventh iteration, trading is enabled, and no
    notification is sent during the run. *)
Lemma C6_counterexample :
  map (fun e => length (candles (data_collector (fst e))))
      (loop (config 10) (polls 11) (entered false 0 0)) =
    [0; 1; 2; 3; 4; 5; 6; 7; 8; 9; 10]%nat /\
  map (fun e => trading_enabled (fst e))
      (loop (config 10) (polls 11) (entered false 0 0)) =
    [false; false; false; false; false; false; false; false; false; false;
     true] /\
  total_notifications (loop (config 10) (polls 11) (entered false 0 0))
    = 0%nat.
Proof. vm_compute. repeat split; reflexivity. Qed.

(** With a notifier the scenario runs as the claim says. *)
Example ten_candles_notified :
  map (fun e => snd e) (loop (config 10) (polls 11) (entered true 0 0)) =
  [[]; []; []; []; []; []; []; []; []; []; [SendTradingEnabled 10]].
Proof. vm_compute. reflexivity. Qed.

(** C7.  When the history, after the update of an iteration, is shorter
    than the lookback of 100 candles, [on_new_candle] returns at once
    and the iteration makes no call to the indicators or to the
    detector. *)
Theorem C7_lookback_skips {num : Type} {N : PyNum num}
  (cfg : Config num) (a : Answers num) (b : IntegratedLiveTrader num) :
  (length (candles (snd (update (fetch a) (now a) (data_collector b))))
     < 100)%nat ->
  (forall l,
     on_new_candle cfg a
       (set_data_collector
          (snd (update (fetch a) (now a) (data_collector b))) b, l) =
     (Some tt,
      (set_data_collector
         (snd (update (fetch a) (now a) (data_collector b))) b, l))) /\
  Forall (fun e => evaluates e = false)
    (snd (snd (iteration cfg a (b, [])))).
Proof.
  intros Hlen. split.
  - intros l. apply on_new_candle_skips. exact Hlen.
  - destruct (iteration_run cfg a b)
      as (res & b' & evs & E & _ & _ & _ & _ & _ & _ & Hev & _).
    rewrite E. cbn [snd]. apply Hev. exact Hlen.
Qed.

(** Trading is enabled, the history holds five candles, and the
    iteration completes the sixth. *)
Lemma C7_lookback_skips_witness :
  trading_enabled (trader_with 5) = true /\
  fst (update (FetchQuote (flat_quote 100 1)) (7 * interval)
         (data_collector (trader_with 5))) = true /\
  (forall l,
     on_new_candle (config 1) (answers (FetchQuote (flat_quote 100 1),
                                        7 * interval))
       (set_data_collector
          (snd (update (FetchQuote (flat_quote 100 1)) (7 * interval)
                  (data_collector (trader_with 5)))) (trader_with 5), l) =
     (Some tt,
      (set_data_collector
         (snd (update (FetchQuote (flat_quote 100 1)) (7 * interval)
                 (data_collector (trader_with 5)))) (trader_with 5), l))) /\
  Forall (fun e => evaluates e = false)
    (snd (snd (iteration (config 1)
                 (answers (FetchQuote (flat_quote 100 1), 7 * interval))
                 (trader_with 5, [])))).
Proof.
  split; [reflexivity|]. split; [vm_compute; reflexivity|].
  apply (@C7_lookback_skips Z Z_PyNum (config 1)
           (answers (FetchQuote (flat_quote 100 1), 7 * interval))
           (trader_with 5)).
  apply Nat.ltb_lt. vm_compute. reflexivity.
Defined.

(** C10.  With an empty history [get_dataframe] returns [None], and
    [on_new_candle] returns at once: no call is made and nothing
    changes. *)
Theorem C10_empty_history {num : Type} {N : PyNum num}
  (cfg : Config num) (a : Answers num) (b : IntegratedLiveTrader num)
  (l : list (Event num)) :
  candles (data_collector b) = [] ->
  get_dataframe (data_collector b) = None /\
  on_new_candle cfg a (b, l) = (Some tt, (b, l)).
Proof.
  intros He. split.
  - unfold get_dataframe. now rewrite He.
  - apply on_new_candle_skips. rewrite He. cbn. lia.
Qed.

Lemma C10_empty_history_witness :
  get_dataframe (data_collector (entered true 0 0)) = None /\
  on_new_candle (config 1) (signal_answers (Some 0)) (entered true 0 0, []) =
    (Some tt, (entered true 0 0, [])).
Proof.
  apply (@C10_empty_history Z Z_PyNum (config 1) (signal_answers (Some 0))
           (entered true 0 0) []).
  reflexivity.
Defined.

End TraderClaims.

(** * Further properties *)

(** ** The collector *)

Module CollectorExtras.
Import Collector Window CollectorFacts RunShape Demo.

Section WithNum.
Context {num : Type} {N : PyNum num}.
Local Abbreviation Quote := (Collector.Quote num).
Local Abbreviation CurrentCandle := (Collector.CurrentCandle num).
Local Abbreviation Candle := (Collector.Candle num).
Local Abbreviation LiveDataCollector := (Collector.LiveDataCollector num).
Local Abbreviation Fetch := (Collector.Fetch num).

Local Opaque interval.

(** A quote received by a started collector whose accumulator is
    consistent: either it meets the boundary, or it falls inside the
    window. *)
Lemma update_started (q : Quote) (now w : Z) (cur : CurrentCandle)
  (s : LiveDataCollector) :
  candle_start s = Some w ->
  current_candle s = Some cur ->
  consistent cur ->
  exists cur',
    consistent cur' /\ cur_open cur' <> None /\
    ((interval <= now - w /\
      update (FetchQuote q) now s =
        (match cur_open cur with Some _ => true | None => false end,
         {| candles := candles s ++
                       match cur_open cur with
                       | Some _ => [finalize w cur]
                       | None => []
                       end;
            current_candle := Some cur';
            candle_start := Some now |})) \/
     (now - w < interval /\
      update (FetchQuote q) now s =
        (false,
         {| candles := candles s;
            current_candle := Some cur';
            candle_start := Some w |}))).
Proof.
  intros Hw Hc Hcons. destruct s as [cs c start]; cbn in Hw, Hc; subst.
  destruct cur as [o h l c v]. run_monad.
  assert (Hseed : consistent (seeded (mid_price q) (mid_size q)))
    by (right; cbn; repeat split; discriminate).
  destruct (Z.leb_spec interval (now - w)) as [Hle|Hgt]; cbn.
  - exists (seeded (mid_price q) (mid_size q)).
    split; [assumption|]. split; [discriminate|]. left.
    split; [assumption|].
    destruct o as [o|]; cbn.
    + destruct Hcons as [Ho|(Hh & Hl & Hcl)]; [discriminate|].
      cbn in Hh, Hl, Hcl.
      destruct h as [h|]; [|congruence]. destruct l as [l|]; [|congruence].
      destruct c as [c|]; [|congruence]. reflexivity.
    + now rewrite app_nil_r.
  - destruct o as [o|]; cbn.
    + destruct Hcons as [Ho|(Hh & Hl & Hcl)]; [discriminate|].
      cbn in Hh, Hl, Hcl.
      destruct h as [h|]; [|congruence]. destruct l as [l|]; [|congruence].
      cbn.
      exists (mkCurrent (Some o) (Some (pymax h (mid_price q)))
                (Some (pymin l (mid_price q))) (Some (mid_price q))
                (nadd v (mid_size q))).
      split; [right; cbn; repeat split; discriminate|].
      split; [discriminate|]. right. split; [assumption|reflexivity].
    + exists (mkCurrent (Some (mid_price q)) (Some (mid_price q))
                (Some (mid_price q)) (Some (mid_price q))
                (nadd v (mid_size q))).
      split; [right; cbn; repeat split; discriminate|].
      split; [discriminate|]. right. split; [assumption|reflexivity].
Qed.

Lemma chronological_started (s : LiveDataCollector) :
  chronological s ->
  exists w cur,
    candle_start s = Some w /\ current_candle s = Some cur /\ consistent cur.
Proof. intros (w & cur & Hw & Hc & Hcons & _). now exists w, cur. Qed.

(** *** The result of [update] *)

Lemma update_reports_growth (f : Fetch) (now : Z) (s : LiveDataCollector) :
  chronological s ->
  fst (update f now s) = true <->
  length (candles (snd (update f now s))) = S (length (candles s)).
Proof.
  intros Hs. destruct (chronological_started Hs) as (w & cur & Hw & Hc & Hcons).
  destruct f as [| |q]; cbn [update fst snd].
  - cbn. split; [discriminate|lia].
  - cbn. split; [discriminate|lia].
  - destruct (update_started q now s Hw Hc Hcons)
      as (cur' & _ & _ & [[_ E]|[_ E]]); rewrite E; cbn [fst snd candles].
    + destruct (cur_open cur); rewrite length_app; cbn; split;
        intros; try discriminate; lia.
    + split; [discriminate|lia].
Qed.

(** *** The pace of the windows *)

Lemma strongly_sorted_snoc {A : Type} (R : A -> A -> Prop) (l : list A)
  (y : A) :
  StronglySorted R l -> Forall (fun x => R x y) l ->
  StronglySorted R (l ++ [y]).
Proof.
  induction 1 as [|x l Hl IH Hx]; intros Hy; cbn.
  - repeat constructor.
  - inversion Hy as [|? ? Hxy Hly]; subst. constructor; [auto|].
    apply Forall_app. split; [assumption|]. repeat constructor. assumption.
Qed.

Lemma start_collection_paced (t0 : Z) : paced t0 (start_collection t0 init).
Proof.
  exists t0. eexists. cbn.
  split; [reflexivity|]. split; [reflexivity|]. split; [now left|].
  split; [lia|]. split; constructor.
Qed.

Lemma step_paced (t0 : Z) (s : LiveDataCollector) (i : Fetch * Z) :
  paced t0 s -> paced t0 (step s i).
Proof.
  intros (w & cur & Hw & Hc & Hcons & Ht0 & Hsort & Hall).
  destruct i as [f now]. unfold step; cbn [fst snd].
  destruct f as [| |q]; try (exists w, cur; now repeat split).
  pose proof interval_pos as Hpos.
  destruct (update_started q now s Hw Hc Hcons)
    as (cur' & Hcons' & _ & [[Hle E]|[Hlt E]]); rewrite E; cbn [snd].
  - exists now, cur'. cbn [candle_start current_candle candles].
    split; [reflexivity|]. split; [reflexivity|]. split; [assumption|].
    split; [lia|].
    assert (Hold : Forall (fun c => t0 <= timestamp c /\
                                    apart (timestamp c) now) (candles s)).
    { eapply Forall_impl; [|exact Hall]. unfold apart. cbn. intros; lia. }
    destruct (cur_open cur); [|rewrite app_nil_r; now split].
    split.
    + rewrite map_app. cbn. apply strongly_sorted_snoc; [assumption|].
      apply Forall_map. eapply Forall_impl; [|exact Hall]. cbn. tauto.
    + apply Forall_app. split; [assumption|].
      repeat constructor; unfold apart; cbn; lia.
  - exists w, cur'. cbn [candle_start current_candle candles].
    repeat split; assumption.
Qed.

Lemma run_paced (t0 : Z) (ins : list (Fetch * Z)) : paced t0 (run t0 ins).
Proof.
  unfold run. generalize (start_collection_paced t0).
  generalize (start_collection t0 (@init num)).
  induction ins as [|i ins IH]; intros s Hs; cbn; [assumption|].
  apply IH. now apply step_paced.
Qed.

(** *** The accumulator after the first quote *)

Lemma step_quote_filled (s : LiveDataCollector) (q : Quote) (now : Z) :
  chronological s -> filled (step s (FetchQuote q, now)).
Proof.
  intros Hs. destruct (chronological_started Hs) as (w & cur & Hw & Hc & Hcons).
  unfold step; cbn [fst snd].
  destruct (update_started q now s Hw Hc Hcons)
    as (cur' & _ & Ho & [[_ E]|[_ E]]); rewrite E; cbn [snd];
    destruct (cur_open cur') as [o|] eqn:Eo; try congruence;
    now exists cur', o.
Qed.

Lemma run_from_filled (ins : list (Fetch * Z)) (s : LiveDataCollector) :
  chronological s ->
  filled s \/ quotes_of ins <> [] ->
  filled (run_from s ins).
Proof.
  revert s. induction ins as [|[f now] ins IH]; intros s Hs Hq.
  - destruct Hq as [Hf|Hne]; [exact Hf|now contradiction Hne].
  - cbn [run_from fold_left].
    apply IH; [now apply step_chronological|].
    destruct f as [| |q].
    + destruct Hq as [Hf|Hne]; [now left|right; exact Hne].
    + destruct Hq as [Hf|Hne]; [now left|right; exact Hne].
    + left. now apply step_quote_filled.
Qed.

(** *** Calls without a quote *)

Lemma run_from_skips (ins : list (Fetch * Z)) (s : LiveDataCollector) :
  run_from s ins = run_from s (filter carries_quote ins).
Proof.
  revert s. induction ins as [|[f now] ins IH]; intros s; [reflexivity|].
  cbn [filter]. unfold carries_quote at 1; cbn [fst].
  destruct f as [| |q]; cbn [run_from fold_left]; apply IH.
Qed.

(** *** Counting candles and quotes *)

Lemma log_step_open (l : Log) (i : Fetch * Z) :
  done l = [] \/ win l <> [] ->
  done (log_step l i) = [] \/ win (log_step l i) <> [].
Proof.
  intros Hl. unfold log_step. destruct (fst i) as [| |q]; try assumption.
  destruct (interval <=? snd i - win_start l); cbn.
  - right. discriminate.
  - right. now destruct (win l).
Qed.

Lemma log_fold_open (ins : list (Fetch * Z)) (l : Log) :
  done l = [] \/ win l <> [] ->
  done (fold_left log_step ins l) = [] \/
  win (fold_left log_step ins l) <> [].
Proof.
  revert l. induction ins as [|i ins IH]; intros l Hl; cbn; [assumption|].
  apply IH. now apply log_step_open.
Qed.

Lemma concat_length_ge {A B : Type} (ds : list (A * list B)) :
  Forall (fun d => snd d <> []) ds ->
  (length ds <= length (concat (map snd ds)))%nat.
Proof.
  induction 1 as [|[a xs] ds Hd _ IH]; cbn; [lia|].
  rewrite length_app. destruct xs; [now contradiction Hd|cbn; lia].
Qed.

End WithNum.

(** X1.  Before [start_collection], a call to [update] changes nothing
    and returns [False], whatever the fetch answers. *)
Theorem X1_update_before_start {num : Type} {N : PyNum num}
  (f : Fetch num) (now : Z) (s : LiveDataCollector num) :
  candle_start s = None \/ current_candle s = None ->
  update f now s = (false, s).
Proof. apply update_not_started. Qed.

Lemma X1_update_before_start_witness :
  update (FetchQuote (flat_quote 100 1)) 0 (@init Z) = (false, init).
Proof.
  apply (@X1_update_before_start Z Z_PyNum (FetchQuote (flat_quote 100 1)) 0
           init).
  left. reflexivity.
Defined.

(** X2.  In every run, [update] returns [True] exactly when the call
    made the history one candle longer. *)
Theorem X2_update_reports_growth {num : Type} {N : PyNum num}
  (t0 : Z) (ins : list (Fetch num * Z)) (f : Fetch num) (now : Z) :
  fst (update f now (run t0 ins)) = true <->
  length (candles (snd (update f now (run t0 ins)))) =
    S (length (candles (run t0 ins))).
Proof. apply update_reports_growth, run_chronological. Qed.

(** X3.  In every run started at [t0], each candle started at least one
    interval after the candle before it and not before [t0], and the
    open window started at least one interval after every candle. *)
Theorem X3_windows_paced {num : Type} {N : PyNum num}
  (t0 : Z) (ins : list (Fetch num * Z)) :
  StronglySorted apart (map timestamp (candles (run t0 ins))) /\
  Forall (fun c => t0 <= timestamp c) (candles (run t0 ins)) /\
  exists w,
    candle_start (run t0 ins) = Some w /\ t0 <= w /\
    Forall (fun c => apart (timestamp c) w) (candles (run t0 ins)).
Proof.
  destruct (run_paced t0 ins) as (w & cur & Hw & _ & _ & Ht0 & Hs & Hall).
  split; [assumption|]. split.
  - eapply Forall_impl; [|exact Hall]. cbn. tauto.
  - exists w. repeat split; try assumption.
    eapply Forall_impl; [|exact Hall]. cbn. tauto.
Qed.

(** X4.  Every candle of a run has its four prices, and its high is
    below none of open, close and low, its low above none of open and
    close. *)
Theorem X4_candle_prices_ordered {num : Type} {N : PyNum num}
  (L : PyNumLaws N) (t0 : Z) (ins : list (Fetch num * Z))
  (c : Candle num) :
  In c (candles (run t0 ins)) ->
  exists o h l cl,
    open c = Some o /\ high c = Some h /\ low c = Some l /\
    close c = Some cl /\
    nlt h o = false /\ nlt h cl = false /\ nlt h l = false /\
    nlt o l = false /\ nlt cl l = false.
Proof.
  intros Hin. destruct (tracks_run t0 ins) as (_ & _ & Hd).
  destruct (log_fold_facts ins {| done := []; win_start := t0; win := [] |})
    as [Hne _]; [constructor|]. fold (log_of t0 ins) in Hne.
  rewrite Hd in Hin. apply in_map_iff in Hin.
  destruct Hin as ([w ws] & <- & Hin). cbn [fst snd].
  rewrite Forall_forall in Hne. pose proof (Hne _ Hin) as Hws. cbn in Hws.
  destruct ws as [|q0 rest]; [now contradiction Hws|].
  destruct (maximum (prices (q0 :: rest))) as [h|] eqn:Eh; [|discriminate].
  destruct (minimum (prices (q0 :: rest))) as [l|] eqn:El; [|discriminate].
  destruct (maximum_spec _ Eh) as [Hh1 Hh2].
  destruct (minimum_spec _ El) as [Hl1 Hl2].
  destruct (last_price (q0 :: rest)) as [cl|] eqn:Ecl.
  2:{ unfold last_price, prices in Ecl. cbn in Ecl.
      destruct (rev (map mid_price rest)); cbn in Ecl; discriminate. }
  assert (Hcl : In cl (prices (q0 :: rest))).
  { unfold last_price in Ecl. apply in_rev.
    destruct (rev (prices (q0 :: rest))) as [|x xs]; [discriminate|].
    injection Ecl as ->. now left. }
  assert (Ho : In (mid_price q0) (prices (q0 :: rest))) by now left.
  exists (mid_price q0), h, l, cl.
  unfold candle_of; cbn [open high low close].
  rewrite Eh, El, Ecl. repeat split; auto.
Qed.

Lemma X4_candle_prices_ordered_witness :
  exists o h l cl,
    open (candle_of 0 (quotes_of one_window)) = Some o /\
    high (candle_of 0 (quotes_of one_window)) = Some h /\
    low (candle_of 0 (quotes_of one_window)) = Some l /\
    close (candle_of 0 (quotes_of one_window)) = Some cl /\
    nlt h o = false /\ nlt h cl = false /\ nlt h l = false /\
    nlt o l = false /\ nlt cl l = false.
Proof.
  apply (@X4_candle_prices_ordered Z Z_PyNum Z_PyNumLaws 0
           (one_window ++ [(FetchQuote (flat_quote 101 1), interval)])).
  vm_compute. left. reflexivity.
Defined.

(** X5.  Calls whose fetch raises or yields no quote do not count: a
    run ends in the same state as the run of its calls that received a
    quote. *)
Theorem X5_empty_polls_ignored {num : Type} {N : PyNum num}
  (t0 : Z) (ins : list (Fetch num * Z)) :
  run t0 ins = run t0 (filter carries_quote ins).
Proof. apply run_from_skips. Qed.

(** X6.  Once [has_minimum_candles] holds for a count it holds after
    every further call to [update]. *)
Theorem X6_minimum_candles_kept {num : Type} {N : PyNum num}
  (m : Z) (s : LiveDataCollector num) (ins : list (Fetch num * Z)) :
  has_minimum_candles m s = true ->
  has_minimum_candles m (run_from s ins) = true.
Proof.
  revert s. induction ins as [|[f now] ins IH]; intros s Hs; [exact Hs|].
  cbn [run_from fold_left]. apply IH.
  unfold step, has_minimum_candles in *; cbn [fst snd].
  rewrite update_candles, length_app.
  apply Z.leb_le in Hs. apply Z.leb_le. lia.
Qed.

Lemma X6_minimum_candles_kept_witness :
  has_minimum_candles 1
    (run_from (history 1) [(FetchNone, 0); (FetchQuote (flat_quote 90 1), 5)])
  = true.
Proof.
  apply (@X6_minimum_candles_kept Z Z_PyNum 1 (history 1)
           [(FetchNone, 0); (FetchQuote (flat_quote 90 1), 5)]).
  vm_compute. reflexivity.
Defined.

(** X7.  A run holds at most one candle fewer than the quotes it
    received: the quotes of the open window are in no candle yet. *)
Theorem X7_candles_below_quotes {num : Type} {N : PyNum num}
  (L : PyNumLaws N) (t0 : Z) (ins : list (Fetch num * Z)) :
  (length (candles (run t0 ins)) <= pred (length (quotes_of ins)))%nat.
Proof.
  destruct (tracks_run t0 ins) as (_ & _ & Hd).
  destruct (log_fold_facts ins {| done := []; win_start := t0; win := [] |})
    as [Hne Hpart]; [constructor|].
  destruct (log_fold_open ins {| done := []; win_start := t0; win := [] |})
    as [Hnil|Hwin]; [now left| |];
    fold (log_of t0 ins) in *; rewrite Hd, length_map.
  - rewrite Hnil. cbn. lia.
  - pose proof (concat_length_ge Hne) as Hlen.
    cbn [done win map concat app] in Hpart.
    rewrite <- Hpart, length_app.
    destruct (win (log_of t0 ins)); [now contradiction Hwin|cbn; lia].
Qed.

Lemma X7_candles_below_quotes_witness :
  (length (candles (run 0 (boundary_ticks 4))) <=
   pred (length (quotes_of (boundary_ticks 4))))%nat.
Proof. apply (@X7_candles_below_quotes Z Z_PyNum Z_PyNumLaws). Defined.

(** X8.  Once a run has received a quote the accumulator holds a price,
    so every later quote that meets the boundary completes a candle: the
    restart of an empty window can only be caused by the first quote. *)
Theorem X8_filled_after_first_quote {num : Type} {N : PyNum num}
  (t0 : Z) (ins : list (Fetch num * Z)) :
  quotes_of ins <> [] ->
  filled (run t0 ins) /\
  forall (q : Quote num) (now w : Z),
    candle_start (run t0 ins) = Some w ->
    interval <= now - w ->
    fst (update (FetchQuote q) now (run t0 ins)) = true.
Proof.
  intros Hq.
  assert (Hf : filled (run t0 ins)).
  { apply run_from_filled; [apply start_collection_chronological|now right]. }
  split; [exact Hf|]. intros q now w Hw Hle.
  destruct Hf as (cur & o & Hc & Ho).
  destruct (run_chronological t0 ins) as (w' & cur' & Hw' & Hc' & Hcons & _).
  assert (cur' = cur) as -> by congruence.
  destruct (update_started q now (run t0 ins) Hw Hc Hcons)
    as (cur2 & _ & _ & [[_ E]|[Hlt _]]); [|lia].
  rewrite E, Ho. reflexivity.
Qed.

Lemma X8_filled_after_first_quote_witness :
  filled (run 0 one_window) /\
  forall (q : Quote Z) (now w : Z),
    candle_start (run 0 one_window) = Some w ->
    interval <= now - w ->
    fst (update (FetchQuote q) now (run 0 one_window)) = true.
Proof.
  apply (@X8_filled_after_first_quote Z Z_PyNum 0 one_window).
  discriminate.
Defined.

End CollectorExtras.

(** ** The trader *)

Module TraderExtras.
Import Collector Trader TraderFacts Calls Startup Demo Scenario.

Section WithNum.
Context {num : Type} {N : PyNum num}.
Local Abbreviation Candle := (Collector.Candle num).
Local Abbreviation LiveDataCollector := (Collector.LiveDataCollector num).
Local Abbreviation Config := (Trader.Config num).
Local Abbreviation Answers := (Trader.Answers num).
Local Abbreviation Event := (Trader.Event num).
Local Abbreviation IntegratedLiveTrader := (Trader.IntegratedLiveTrader num).

Lemma send_status_update_calls (a : Answers) (b : IntegratedLiveTrader)
  (l : list Event) :
  send_status_update a (b, l) =
    (Some tt, (b, l ++ if discord b then status_calls a else [])).
Proof.
  unfold send_status_update, status_calls. run_trader.
  destruct (discord b); cbn; [|now rewrite app_nil_r].
  destruct (status_account_ok a); cbn; rewrite <- ?app_assoc; cbn;
    [|reflexivity].
  destruct (status_positions_ok a); cbn; rewrite <- ?app_assoc; cbn;
    [|reflexivity].
  destruct (status_send_ok a); reflexivity.
Qed.

Lemma status_broadcast_calls (cfg : Config) (a : Answers)
  (b : IntegratedLiveTrader) (l : list Event) :
  status_broadcast cfg a (b, l) =
    (Some tt,
     (set_last_discord_update
        (if discord b && trading_enabled b && cooldown_elapsed cfg a b
         then time2 a else last_discord_update b) b,
      l ++ if discord b && trading_enabled b && cooldown_elapsed cfg a b
           then status_calls a else [])).
Proof.
  unfold status_broadcast, cooldown_elapsed, cooldown. run_trader.
  destruct b as [dc d te rn last sd]; cbn -[send_status_update].
  destruct (d && te) eqn:E; cbn -[send_status_update].
  - apply andb_true_iff in E. destruct E as [-> ->].
    destruct (nlt _ _); cbn -[send_status_update].
    + rewrite send_status_update_calls. reflexivity.
    + now rewrite app_nil_r.
  - now rewrite app_nil_r.
Qed.

Lemma dispatch_candle_idle (cfg : Config) (a : Answers)
  (b : IntegratedLiveTrader) (l : list Event) :
  dispatch_candle cfg a false (b, l) = (Some tt, (b, l)).
Proof.
  unfold dispatch_candle. run_trader. now rewrite andb_false_r.
Qed.

(** The calls of [on_new_candle] when an indicator raises. *)
Lemma on_new_candle_indicator_error (cfg : Config) (a : Answers)
  (b : IntegratedLiveTrader) (l : list Event) :
  (100 <= length (candles (data_collector b)))%nat ->
  (indicators_ok a < 5)%nat ->
  on_new_candle cfg a (b, l) =
    (Some tt, (b, l ++ firstn (S (indicators_ok a)) indicator_calls)).
Proof.
  intros Hlen Hind.
  unfold on_new_candle, calculate_indicators, indicator_calls. run_trader.
  destruct (get_dataframe (data_collector b)) as [rows|] eqn:E.
  2:{ unfold get_dataframe in E.
      destruct (candles (data_collector b)); [cbn in Hlen; lia|discriminate]. }
  apply get_dataframe_rows in E. subst rows.
  apply Nat.ltb_ge in Hlen. rewrite Hlen.
  destruct (indicators_ok a) as [|[|[|[|[|n]]]]]; try lia; cbn;
    now rewrite <- ?app_assoc.
Qed.

(** The calls of [on_new_candle] when the status line is printed and the
    detector raises or finds no signal. *)
Lemma on_new_candle_no_signal (cfg : Config) (a : Answers)
  (b : IntegratedLiveTrader) (l : list Event) :
  (100 <= length (candles (data_collector b)))%nat ->
  (5 <= indicators_ok a)%nat ->
  status_line_ok a = true ->
  (forall sg, detect a <> DetectSome sg) ->
  on_new_candle cfg a (b, l) =
    (Some tt,
     (b, l ++ indicator_calls ++
              if signal_detector b then [DetectSignal] else [])).
Proof.
  intros Hlen Hind Hline Hdet.
  unfold on_new_candle, calculate_indicators, detect_signal, indicator_calls.
  run_trader.
  destruct (get_dataframe (data_collector b)) as [rows|] eqn:E.
  2:{ unfold get_dataframe in E.
      destruct (candles (data_collector b)); [cbn in Hlen; lia|discriminate]. }
  apply get_dataframe_rows in E. subst rows.
  apply Nat.ltb_ge in Hlen. rewrite Hlen.
  destruct (indicators_ok a) as [|[|[|[|[|n]]]]]; try lia. cbn.
  rewrite Hline; cbn.
  destruct (signal_detector b); cbn; [|now rewrite <- !app_assoc].
  destruct (detect a) as [| |sg]; cbn; try (now rewrite <- !app_assoc).
  now contradiction (Hdet sg).
Qed.

(** [on_new_candle] raises exactly when the status line does; it leaves
    the object as it is either way, and without a notifier it only calls
    the indicators and the detector. *)
Lemma on_new_candle_outcome (cfg : Config) (a : Answers)
  (b : IntegratedLiveTrader) (l : list Event) :
  exists evs,
    on_new_candle cfg a (b, l) =
      (if line_raises a b then None else Some tt, (b, l ++ evs)) /\
    (discord b = false -> Forall (fun e => evaluates e = true) evs) /\
    Forall (fun e => is_send_trading_enabled e = false) evs.
Proof.
  unfold line_raises.
  destruct (Nat.ltb_spec (length (candles (data_collector b))) 100)
    as [Hlt|Hge].
  - exists []. rewrite on_new_candle_skips by assumption.
    apply Nat.leb_gt in Hlt. rewrite Hlt, app_nil_r. cbn. auto.
  - pose proof Hge as Hge'. apply Nat.leb_le in Hge'. rewrite Hge'.
    unfold on_new_candle, calculate_indicators, detect_signal,
      get_account_equity.
    run_trader.
    destruct (get_dataframe (data_collector b)) as [rows|] eqn:E.
    2:{ unfold get_dataframe in E.
        destruct (candles (data_collector b)); [cbn in Hge; lia|discriminate]. }
    apply get_dataframe_rows in E. subst rows.
    apply Nat.ltb_ge in Hge. rewrite Hge.
    destruct (indicators_ok a) as [|[|[|[|[|n]]]]]; cbn;
      rewrite <- ?app_assoc; cbn;
      try (eexists; split; [reflexivity|split; [intros _|];
                                         repeat constructor]).
    destruct (status_line_ok a); cbn;
      [|eexists; split; [reflexivity|split; [intros _|];
                                      repeat constructor]].
    destruct (signal_detector b); cbn;
      [|eexists; split; [reflexivity|split; [intros _|];
                                      repeat constructor]].
    destruct (detect a) as [| |sg]; cbn; rewrite <- ?app_assoc; cbn;
      try (eexists; split; [reflexivity|split; [intros _|];
                                         repeat constructor]).
    destruct (signal_report_ok a); cbn;
      [|eexists; split; [reflexivity|split; [intros _|];
                                      repeat constructor]].
    destruct (discord b); cbn; rewrite <- ?app_assoc; cbn;
      [|eexists; split; [reflexivity|split; [intros _|];
                                      repeat constructor]].
    destruct (signal_equity a) as [e|]; cbn; rewrite <- ?app_assoc; cbn;
      [|eexists; split; [reflexivity|split; [discriminate|];
                                      repeat constructor]].
    destruct (send_signal_ok a); cbn; rewrite <- ?app_assoc; cbn;
      (eexists; split; [reflexivity|split; [discriminate|];
                                    repeat constructor]).
Qed.

Lemma dispatch_candle_calls (cfg : Config) (a : Answers) (r : bool)
  (b : IntegratedLiveTrader) (l : list Event) :
  exists evs,
    dispatch_candle cfg a r (b, l) =
      (if trading_enabled b && r && line_raises a b then None else Some tt,
       (b, l ++ evs)) /\
    (r = false -> evs = []) /\
    (trading_enabled b = false -> evs = []) /\
    (discord b = false -> Forall (fun e => evaluates e = true) evs) /\
    Forall (fun e => is_send_trading_enabled e = false) evs.
Proof.
  unfold dispatch_candle. run_trader.
  destruct (trading_enabled b && r) eqn:E; cbn -[on_new_candle Nat.ltb].
  - destruct (on_new_candle_outcome cfg a b l) as (evs & E' & H1 & H2).
    apply andb_true_iff in E. destruct E as [Ht Hr].
    exists evs. rewrite E'. repeat split; auto; congruence.
  - exists []. rewrite app_nil_r. repeat split; auto.
Qed.

(** One iteration, block by block: the object and the calls it ends
    with, and where it raised if it did. *)
Lemma iteration_state (cfg : Config) (a : Answers) (b : IntegratedLiveTrader) :
  let r := fst (update (fetch a) (now a) (data_collector b)) in
  let b1 := set_data_collector
              (snd (update (fetch a) (now a) (data_collector b))) b in
  let opening := negb (trading_enabled b) && reached cfg b1 in
  let b2 := if opening then enabled_of b1 else b1 in
  let sent := if opening && discord b
              then [SendTradingEnabled (length (candles (data_collector b1)))]
              else [] in
  let status := discord b && trading_enabled b2 && cooldown_elapsed cfg a b in
  let broken := trading_enabled b2 && r && line_raises a b1 in
  if opening && discord b && negb (send_trading_enabled_ok a)
  then iteration cfg a (b, []) = (None, (b2, sent))
  else
    exists evs,
      iteration cfg a (b, []) =
        (if broken then (None, (b2, sent ++ evs))
         else
           (Some tt,
            (set_last_discord_update
               (if status then time2 a else last_discord_update b) b2,
             sent ++ evs ++ if status then status_calls a else []))) /\
      (r = false -> evs = []) /\
      (trading_enabled b2 = false -> evs = []) /\
      (discord b = false -> Forall (fun e => evaluates e = true) evs) /\
      Forall (fun e => is_send_trading_enabled e = false) evs.
Proof.
  intros r b1 opening b2 sent status broken.
  rewrite iteration_blocks. fold b1. fold r. rewrite enable_trading_run.
  assert (Hte : trading_enabled b1 = trading_enabled b) by reflexivity.
  assert (Hd : discord b1 = discord b) by reflexivity.
  assert (Hc : cooldown_elapsed cfg a b1 = cooldown_elapsed cfg a b)
    by reflexivity.
  assert (Hl : last_discord_update b1 = last_discord_update b)
    by reflexivity.
  assert (Hd' : discord (enabled_of b1) = discord b) by reflexivity.
  assert (Hc' : cooldown_elapsed cfg a (enabled_of b1) =
                cooldown_elapsed cfg a b) by reflexivity.
  assert (Hl' : last_discord_update (enabled_of b1) = last_discord_update b)
    by reflexivity.
  assert (Hr' : line_raises a (enabled_of b1) = line_raises a b1)
    by reflexivity.
  assert (Tail : forall (b3 : IntegratedLiveTrader) (l : list Event),
            discord b3 = discord b ->
            cooldown_elapsed cfg a b3 = cooldown_elapsed cfg a b ->
            last_discord_update b3 = last_discord_update b ->
            line_raises a b3 = line_raises a b1 ->
            exists evs,
              match dispatch_candle cfg a r (b3, l) with
              | (Some _, w2) => status_broadcast cfg a w2
              | (None, w2) => (None, w2)
              end =
              (if trading_enabled b3 && r && line_raises a b1
               then (None, (b3, l ++ evs))
               else
                 (Some tt,
                  (set_last_discord_update
                     (if discord b && trading_enabled b3 &&
                         cooldown_elapsed cfg a b
                      then time2 a else last_discord_update b) b3,
                   l ++ evs ++
                   if discord b && trading_enabled b3 &&
                      cooldown_elapsed cfg a b
                   then status_calls a else []))) /\
              (r = false -> evs = []) /\
              (trading_enabled b3 = false -> evs = []) /\
              (discord b = false ->
               Forall (fun e => evaluates e = true) evs) /\
              Forall (fun e => is_send_trading_enabled e = false) evs).
  { intros b3 l E1 E2 E3 E4.
    destruct (dispatch_candle_calls cfg a r b3 l)
      as (evs & E & H1 & H2 & H3 & H4).
    exists evs. rewrite E, E4. rewrite E1 in H3.
    split; [|repeat split; assumption].
    destruct (trading_enabled b3 && r && line_raises a b1); [reflexivity|].
    rewrite status_broadcast_calls, E1, E2, E3, <- app_assoc. reflexivity. }
  rewrite Hte, Hd. subst opening.
  destruct (trading_enabled b) eqn:Ht; cbn [negb andb] in *.
  - destruct (Tail b1 [] Hd Hc Hl eq_refl) as (evs & E & H).
    exists evs. subst b2 sent broken status. rewrite E. split; [|exact H].
    reflexivity.
  - destruct (reached cfg b1) eqn:Hr; cbn [negb andb] in *.
    + destruct (discord b) eqn:Hdis; cbn [negb andb] in *.
      * destruct (send_trading_enabled_ok a); cbn [negb]; [|reflexivity].
        destruct (Tail (enabled_of b1) ([] ++ sent) Hd' Hc' Hl' Hr')
          as (evs & E & H).
        exists evs. subst b2 sent broken status. rewrite E. split; [|exact H].
        reflexivity.
      * destruct (Tail (enabled_of b1) [] Hd' Hc' Hl' Hr') as (evs & E & H).
        exists evs. subst b2 sent broken status. rewrite E. split; [|exact H].
        reflexivity.
    + destruct (Tail b1 [] Hd Hc Hl eq_refl) as (evs & E & H).
      exists evs. subst b2 sent broken status. rewrite E. split; [|exact H].
      reflexivity.
Qed.


Lemma status_calls_outward (a : Answers) :
  Forall (fun e => evaluates e = false /\ is_send_signal e = false)
    (status_calls a).
Proof.
  unfold status_calls.
  destruct (status_account_ok a), (status_positions_ok a);
    repeat constructor.
Qed.

Lemma iteration_settled (cfg : Config) (a : Answers) (d : bool)
  (b : IntegratedLiveTrader) :
  settled d b -> settled d (fst (snd (iteration cfg a (b, [])))).
Proof.
  intros (Hsd & Hd & Hr). pose proof (iteration_state cfg a b) as H.
  cbv zeta in H.
  destruct (negb (trading_enabled b) &&
            reached cfg (set_data_collector
              (snd (update (fetch a) (now a) (data_collector b))) b)) eqn:Eo.
  - apply andb_true_iff in Eo. destruct Eo as [Hn _].
    destruct (discord b && negb (send_trading_enabled_ok a)) eqn:Ec;
      cbn [andb] in H.
    + rewrite Ec in H. rewrite H. cbn. repeat split; assumption.
    + rewrite Ec in H. destruct H as (evs & E & _). rewrite E.
      destruct (_ && line_raises a _); cbn; repeat split; assumption.
  - cbn [andb] in H. destruct H as (evs & E & _). rewrite E.
    destruct (_ && line_raises a _); cbn; repeat split; assumption.
Qed.

Lemma loop_settled (cfg : Config) (d : bool) (answers : list Answers)
  (b : IntegratedLiveTrader) :
  settled d b -> Forall (fun e => settled d (fst e)) (loop cfg answers b).
Proof.
  revert b. induction answers as [|a rest IH]; intros b Hb; cbn [loop].
  - constructor.
  - pose proof (iteration_settled cfg a Hb) as Hb'.
    destruct (iteration cfg a (b, [])) as [[[]|] w]; cbn [fst snd] in Hb'.
    + constructor; [assumption|]. now apply IH.
    + constructor; [assumption|constructor].
Qed.

Lemma loop_collector (cfg : Config) (answers : list Answers)
  (b : IntegratedLiveTrader) (i : nat) (e : IntegratedLiveTrader * list Event) :
  nth_error (loop cfg answers b) i = Some e ->
  data_collector (fst e) =
    run_from (data_collector b) (ticks (firstn (S i) answers)).
Proof.
  revert b i. induction answers as [|a rest IH]; intros b i; cbn [loop].
  - destruct i; discriminate.
  - destruct (iteration_run cfg a b) as (res & b' & evs & E & Hc & _).
    rewrite E. intros Hn.
    assert (Hstep : data_collector b' =
                    step (data_collector b) (fetch a, now a)) by exact Hc.
    destruct i as [|j].
    + assert (e = (b', evs)) as ->
        by (destruct res as [[]|]; cbn in Hn; congruence).
      cbn. exact Hstep.
    + destruct res as [[]|]; cbn [nth_error fst] in Hn.
      * rewrite (IH b' j Hn), Hstep. reflexivity.
      * destruct j; discriminate.
Qed.


End WithNum.


(** The status line raises: the exception leaves [on_new_candle] after
    the indicators, before the detector. *)
Example status_line_error :
  on_new_candle (config 1) (status_line_raises (FetchNone, 0))
    (trader_with 100, []) =
  (None, (trader_with 100, indicator_calls)).
Proof. vm_compute. reflexivity. Qed.

(** The report of the signal raises inside the [try]: no call to the
    broker or to the notifier follows. *)
Example signal_report_error :
  on_new_candle (config 1) report_raises (trader_with 100, []) =
  (Some tt, (trader_with 100, indicator_calls ++ [DetectSignal])).
Proof. vm_compute. reflexivity. Qed.

(** X10.  When an indicator call raises, [on_new_candle] makes no call
    after it: neither the remaining indicators nor the detector, the
    broker or the notifier. *)
Theorem X10_indicator_error_stops {num : Type} {N : PyNum num}
  (cfg : Config num) (a : Answers num) (b : IntegratedLiveTrader num)
  (l : list (Event num)) :
  (100 <= length (candles (data_collector b)))%nat ->
  (indicators_ok a < 5)%nat ->
  on_new_candle cfg a (b, l) =
    (Some tt, (b, l ++ firstn (S (indicators_ok a)) indicator_calls)).
Proof. apply on_new_candle_indicator_error. Qed.

Lemma X10_indicator_error_stops_witness :
  on_new_candle (config 1) indicator_raises (trader_with 100, []) =
    (Some tt,
     (trader_with 100, [CalculateRsi; CalculateAtr; CalculateEma EMA_FAST])).
Proof.
  apply (@X10_indicator_error_stops Z Z_PyNum (config 1) indicator_raises
           (trader_with 100) []).
  - apply Nat.leb_le. vm_compute. reflexivity.
  - apply Nat.ltb_lt. vm_compute. reflexivity.
Defined.

(** X11.  When the status line is printed and the detector raises or
    finds no signal, [on_new_candle] returns normally and calls neither
    the broker nor the notifier. *)
Theorem X11_no_signal_no_broker {num : Type} {N : PyNum num}
  (cfg : Config num) (a : Answers num) (b : IntegratedLiveTrader num)
  (l : list (Event num)) :
  (100 <= length (candles (data_collector b)))%nat ->
  (5 <= indicators_ok a)%nat ->
  status_line_ok a = true ->
  (forall sg, detect a <> DetectSome sg) ->
  on_new_candle cfg a (b, l) =
    (Some tt,
     (b, l ++ indicator_calls ++
              if signal_detector b then [DetectSignal] else [])).
Proof. apply on_new_candle_no_signal. Qed.

Lemma X11_no_signal_no_broker_witness :
  on_new_candle (config 1) detector_raises (trader_with 100, []) =
    (Some tt, (trader_with 100, indicator_calls ++ [DetectSignal])).
Proof.
  apply (@X11_no_signal_no_broker Z Z_PyNum (config 1) detector_raises
           (trader_with 100) []).
  - apply Nat.leb_le. vm_compute. reflexivity.
  - apply Nat.leb_le. vm_compute. reflexivity.
  - reflexivity.
  - intros sg. discriminate.
Defined.


(** X13.  After an iteration that returns, [last_discord_update] is the
    clock of that iteration when a notifier is set, trading is enabled
    and the cooldown has elapsed, whether or not the status update went
    through; otherwise it is unchanged. *)
Theorem X13_cooldown_reset {num : Type} {N : PyNum num}
  (cfg : Config num) (a : Answers num) (b b' : IntegratedLiveTrader num)
  (evs : list (Event num)) :
  iteration cfg a (b, []) = (Some tt, (b', evs)) ->
  last_discord_update b' =
    if discord b && trading_enabled b' && cooldown_elapsed cfg a b
    then time2 a else last_discord_update b.
Proof.
  intros E. pose proof (iteration_state cfg a b) as H. cbv zeta in H.
  destruct (_ && negb (send_trading_enabled_ok a)).
  - rewrite H in E. discriminate.
  - destruct H as (evs' & E' & _). rewrite E' in E.
    destruct (_ && line_raises a _); [discriminate|].
    injection E as <- _. reflexivity.
Qed.

Lemma X13_cooldown_reset_witness :
  last_discord_update
    (fst (snd (iteration (config 1) status_fails (trader_with 5, [])))) =
  1001.
Proof.
  assert (E : iteration (config 1) status_fails (trader_with 5, []) =
              (Some tt,
               (fst (snd (iteration (config 1) status_fails
                            (trader_with 5, []))),
                snd (snd (iteration (config 1) status_fails
                            (trader_with 5, []))))))
    by (vm_compute; reflexivity).
  rewrite (@X13_cooldown_reset Z Z_PyNum (config 1) status_fails
             (trader_with 5) _ _ E).
  vm_compute. reflexivity.
Defined.


(** X15.  In every run from the entry of the loop, after each iteration
    the detector is set exactly when trading is enabled, the notifier is
    as at the entry, and [running] is still set. *)
Theorem X15_loop_attributes {num : Type} {N : PyNum num}
  (cfg : Config num) (d : bool) (t : num) (t0 : Z)
  (answers : list (Answers num)) :
  Forall (fun e => signal_detector (fst e) = trading_enabled (fst e) /\
                   discord (fst e) = d /\ running (fst e) = true)
    (loop cfg answers (entered d t t0)).
Proof.
  apply (loop_settled cfg (d:=d) answers (b:=entered d t t0)).
  repeat split.
Qed.

(** X16.  The loop calls [update] once per iteration and nothing else
    touches the collector: after the iteration of index [i] the
    collector is the one of the run of the first [i + 1] answers. *)
Theorem X16_loop_feeds_collector {num : Type} {N : PyNum num}
  (cfg : Config num) (d : bool) (t : num) (t0 : Z)
  (answers : list (Answers num)) (i : nat)
  (e : IntegratedLiveTrader num * list (Event num)) :
  nth_error (loop cfg answers (entered d t t0)) i = Some e ->
  data_collector (fst e) = Collector.run t0 (ticks (firstn (S i) answers)).
Proof. intros Hn. exact (loop_collector cfg answers _ i Hn). Qed.

Lemma X16_loop_feeds_collector_witness :
  data_collector
    (fst (nth 1 (loop (config 1) (polls 2) (entered true 0 0))
            (entered true 0 0, []))) =
  Collector.run 0 (ticks (firstn 2 (polls 2))).
Proof.
  apply (@X16_loop_feeds_collector Z Z_PyNum (config 1) true 0 0 (polls 2) 1).
  vm_compute. reflexivity.
Defined.

(** X17.  An iteration whose [update] completes no candle calls neither
    the indicators nor the detector and sends no signal. *)
Theorem X17_no_candle_no_evaluation {num : Type} {N : PyNum num}
  (cfg : Config num) (a : Answers num) (b : IntegratedLiveTrader num) :
  fst (update (fetch a) (now a) (data_collector b)) = false ->
  Forall (fun e => evaluates e = false /\ is_send_signal e = false)
    (snd (snd (iteration cfg a (b, [])))).
Proof.
  intros Hr. pose proof (iteration_state cfg a b) as H. cbv zeta in H.
  rewrite Hr in H. rewrite andb_false_r in H. cbn [andb] in H.
  destruct (_ && negb (send_trading_enabled_ok a)).
  - rewrite H. cbn [snd]. destruct (_ && discord b); repeat constructor.
  - destruct H as (evs & E & H1 & _). rewrite E, (H1 eq_refl). cbn [snd app].
    apply Forall_app. split.
    + destruct (_ && discord b); repeat constructor.
    + destruct (_ && cooldown_elapsed cfg a b);
        [apply status_calls_outward|constructor].
Qed.

Lemma X17_no_candle_no_evaluation_witness :
  Forall (fun e => evaluates e = false /\ is_send_signal e = false)
    (snd (snd (iteration (config 1) (signal_answers (Some 0))
                 (trader_with 100, [])))).
Proof.
  apply (@X17_no_candle_no_evaluation Z Z_PyNum (config 1)
           (signal_answers (Some 0)) (trader_with 100)).
  reflexivity.
Defined.



Example silent_signal_calls :
  snd (snd (iteration (config 1) (signal_on_candle 102)
              (silent_trader 100, []))) =
  indicator_calls ++ [DetectSignal].
Proof. vm_compute. reflexivity. Qed.

(** The loop of a run whose notifier raises ends with the iteration
    that enables trading. *)
Example notifier_error_run :
  map (fun e => (trading_enabled (fst e), snd e))
      (loop (config 1) (map notifier_raises (boundary_ticks 5))
         (entered true 0 0)) =
  [(false, []); (true, [SendTradingEnabled 1])].
Proof. vm_compute. reflexivity. Qed.

(** The loop of a run whose status line raises at the hundredth candle
    ends there. *)
Example status_line_error_run :
  map (fun e => length (snd e))
      (loop (config 1)
         (map status_line_raises
            [(FetchQuote (flat_quote 100 1), 101 * interval);
             (FetchQuote (flat_quote 100 1), 102 * interval)])
         (trader_with 99)) = [5%nat].
Proof. vm_compute. reflexivity. Qed.

(** X19.  The constructor raises exactly when one of the two broker keys
    is missing or empty.  Otherwise, when the broker answers at startup,
    the loop is entered with the collector started, trading disabled and
    a notifier exactly when it is enabled in the configuration, both of
    its keys are present and it started; when the broker does not
    answer, [run] raises and the collector is not started. *)
Theorem X19_startup {num : Type} {N : PyNum num}
  (enable start_ok account_ok : bool) (keys : Keys) (t : num) (t0 : Z) :
  (construct enable keys t = None <->
   truthy (ALPACA_API_KEY keys) = false \/
   truthy (ALPACA_SECRET_KEY keys) = false) /\
  forall b : IntegratedLiveTrader num,
    construct enable keys t = Some b ->
    let wanted := enable && truthy (DISCORD_TOKEN keys) &&
                  truthy (DISCORD_CHANNEL_ID keys) in
    if account_ok then
      run_entry start_ok account_ok t0 (b, []) =
        (Some tt,
         (entered (wanted && start_ok) t t0,
          (if wanted then [DiscordStart] else []) ++ [AccountCheck]))
    else
      fst (run_entry start_ok account_ok t0 (b, [])) = None /\
      data_collector (fst (snd (run_entry start_ok account_ok t0 (b, []))))
        = Collector.init.
Proof.
  unfold construct. split.
  - destruct (truthy (ALPACA_API_KEY keys)),
      (truthy (ALPACA_SECRET_KEY keys)); cbn;
      split; auto; try discriminate; intros [H|H]; discriminate.
  - intros b.
    destruct (negb _ || negb _); [discriminate|]. intros [= <-].
    unfold run_entry, initialize, startup_call. run_trader.
    destruct enable, (truthy (DISCORD_TOKEN keys)),
      (truthy (DISCORD_CHANNEL_ID keys)), start_ok, account_ok; cbn;
      try reflexivity; split; reflexivity.
Qed.

Example startup_without_notifier_keys :
  construct true
    {| ALPACA_API_KEY := ALPACA_API_KEY all_keys;
       ALPACA_SECRET_KEY := ALPACA_SECRET_KEY all_keys;
       DISCORD_TOKEN := None;
       DISCORD_CHANNEL_ID := DISCORD_CHANNEL_ID all_keys |} (7 : Z) =
  Some {| data_collector := Collector.init; discord := false;
          trading_enabled := false; running := false;
          last_discord_update := 7; signal_detector := false |}.
Proof. reflexivity. Qed.

End TraderExtras.
